(** * KS53230: the KEYSIGHT 53230A counter driver, embedded and verified

    A shallow embedding of [src/driver/ks53230.py] (class [KS53230]) and
    theorems about its trigger configuration, trigger level and acquisition
    methods.

    Python text is modelled as [string] (ASCII), Python [int] as [Z], a Python
    [float] as an exact binary64 value, a [dict] as an association list in
    insertion order, and every method as a function in a state-and-exception
    monad whose state carries the instance attributes, the traffic with the
    device session and the result container. *)

From Stdlib Require Import ZArith List String Ascii Bool Lia DecimalString.
Import ListNotations.

Local Open Scope string_scope.
Local Open Scope Z_scope.

(** ** Python built-ins used by the driver *)

Module Py.

(** Exceptions.  Those raised by an explicit [raise] of the driver carry the
    message the source builds; those raised by built-ins carry only what the
    theorems look at. *)
Inductive exn : Type :=
| Exception (msg : string)
| AttributeError (msg : string)
| ValueError (msg : string)
| TypeError (msg : string)
| IndexError (msg : string)
| KeyError (key : string)
| NameError (name : string).

Inductive result (A : Type) : Type :=
| Ok (a : A)
| Raise (e : exn).
Arguments Ok {A} a.
Arguments Raise {A} e.

Definition chars (s : string) : list ascii := list_ascii_of_string s.
Definition str (l : list ascii) : string := string_of_list_ascii l.

Definition code (c : ascii) : N := N_of_ascii c.

Definition is_digit (c : ascii) : bool :=
  ((48 <=? code c) && (code c <=? 57))%N.

(** Whitespace of [str.split()] on ASCII text: TAB, LF, VT, FF, CR, FS, GS,
    RS, US and SPACE. *)
Definition is_space (c : ascii) : bool :=
  (((9 <=? code c) && (code c <=? 13)) || ((28 <=? code c) && (code c <=? 32)))%N.

(** Whitespace that [int()] and [float()] strip from an ASCII literal: TAB,
    LF, VT, FF, CR and SPACE only.  The separators FS, GS, RS and US, which
    [str.split()] splits on, are not stripped: [float("+2.0\x1c")] raises
    ValueError. *)
Definition is_literal_space (c : ascii) : bool :=
  (((9 <=? code c) && (code c <=? 13)) || (code c =? 32))%N.

Definition digit_val (c : ascii) : Z := Z.of_N (code c) - 48.

Definition lower (c : ascii) : ascii :=
  if ((65 <=? code c) && (code c <=? 90))%N then ascii_of_N (code c + 32) else c.

Fixpoint lstrip (s : list ascii) : list ascii :=
  match s with
  | c :: t => if is_literal_space c then lstrip t else s
  | [] => []
  end.

Definition strip (s : list ascii) : list ascii :=
  rev (lstrip (rev (lstrip s))).

(** A run of digits in which single underscores may separate digits, as
    the literals of [int()] and [float()] allow: the digits read (without
    the underscores) and the rest of the text. *)
Fixpoint span_digits (s : list ascii) : list ascii * list ascii :=
  match s with
  | c :: t =>
      if is_digit c then
        match t with
        | "_"%char :: ((c2 :: _) as t2) =>
            if is_digit c2
            then let (ds, r) := span_digits t2 in (c :: ds, r)
            else ([c], t)
        | _ => let (ds, r) := span_digits t in (c :: ds, r)
        end
      else ([], s)
  | [] => ([], [])
  end.

Definition digits_val (ds : list ascii) : Z :=
  fold_left (fun acc c => 10 * acc + digit_val c) ds 0.

(** An optional sign: [true] for [-]. *)
Definition take_sign (s : list ascii) : bool * list ascii :=
  match s with
  | "-"%char :: t => (true, t)
  | "+"%char :: t => (false, t)
  | _ => (false, s)
  end.

(** [int(s)] on a string, base 10. *)
Definition parse_int (s : string) : option Z :=
  let (neg, r) := take_sign (strip (chars s)) in
  match span_digits r with
  | ((_ :: _) as ds, []) => Some (if neg then - digits_val ds else digits_val ds)
  | _ => None
  end.

Definition int (s : string) : result Z :=
  match parse_int s with
  | Some z => Ok z
  | None => Raise (ValueError "invalid literal for int() with base 10")
  end.

(** *** Floats

    A finite float is [M * 2^E] with its sign kept apart (so that [-0.0]
    prints as Python prints it); [float()] rounds the decimal literal to the
    nearest binary64 value, ties to even. *)
Inductive float : Type :=
| FFin (neg : bool) (M E : Z)
| FInf (neg : bool)
| FNan.

Definition round_half_even (n d : Z) : Z :=
  let q := n / d in
  match (2 * (n mod d) ?= d) with
  | Lt => q
  | Gt => q + 1
  | Eq => if Z.even q then q else q + 1
  end.

(** The binary64 value nearest to [num / den] ([num >= 0], [den > 0]). *)
Definition binary64_of_ratio (neg : bool) (num den : Z) : float :=
  if num =? 0 then FFin neg 0 0 else
  let e0 := Z.log2 num - Z.log2 den in
  let below :=
    if 0 <=? e0 then num <? den * 2 ^ e0 else num * 2 ^ (- e0) <? den in
  let lg := if below then e0 - 1 else e0 in
  let E := Z.max (lg - 52) (-1074) in
  let M :=
    if 0 <=? E then round_half_even num (den * 2 ^ E)
    else round_half_even (num * 2 ^ (- E)) den in
  if (971 <? E) || ((E =? 971) && (M =? 2 ^ 53)) then FInf neg
  else FFin neg M E.

Definition float_of_int (z : Z) : float :=
  binary64_of_ratio (z <? 0) (Z.abs z) 1.

Definition float_of_decimal (neg : bool) (m e : Z) : float :=
  if 0 <=? e then binary64_of_ratio neg (m * 10 ^ e) 1
  else binary64_of_ratio neg m (10 ^ (- e)).

(** The exponent part of a float literal, after the mantissa. *)
Definition parse_exponent (r : list ascii) : option Z :=
  match r with
  | [] => Some 0
  | c :: t =>
      if (lower c =? "e")%char then
        let (eneg, t') := take_sign t in
        match span_digits t' with
        | ((_ :: _) as ds, []) =>
            Some (if eneg then - digits_val ds else digits_val ds)
        | _ => None
        end
      else None
  end.

(** [float(s)] on a string. *)
Definition parse_float (s : string) : option float :=
  let (neg, r) := take_sign (strip (chars s)) in
  let low := str (map lower r) in
  if String.eqb low "inf" || String.eqb low "infinity" then Some (FInf neg)
  else if String.eqb low "nan" then Some FNan
  else
    let (ip, r1) := span_digits r in
    let (fp, r2) :=
      match r1 with
      | "."%char :: t => span_digits t
      | _ => ([], r1)
      end in
    match (ip ++ fp)%list with
    | [] => None
    | ds =>
        match parse_exponent r2 with
        | Some e =>
            Some (float_of_decimal neg (digits_val ds)
                    (e - Z.of_nat (List.length fp)))
        | None => None
        end
    end.

Definition float_ (s : string) : result float :=
  match parse_float s with
  | Some f => Ok f
  | None => Raise (ValueError "could not convert string to float")
  end.

(** *** Text *)

Definition string_of_Z (z : Z) : string :=
  NilZero.string_of_int (Z.to_int z).

Fixpoint repeat_char (c : ascii) (n : nat) : list ascii :=
  match n with
  | O => []
  | S k => c :: repeat_char c k
  end.

Definition pad_left (c : ascii) (width : nat) (s : list ascii) : list ascii :=
  (repeat_char c (width - List.length s) ++ s)%list.

(** ["%.<prec>f" % f] *)
Definition format_f (prec : nat) (f : float) : string :=
  match f with
  | FNan => "nan"
  | FInf neg => if neg then "-inf" else "inf"
  | FFin neg M E =>
      let p := 10 ^ Z.of_nat prec in
      let n :=
        if 0 <=? E then M * 2 ^ E * p
        else round_half_even (M * p) (2 ^ (- E)) in
      let ip := string_of_Z (n / p) in
      let fp := str (pad_left "0" prec (chars (string_of_Z (n mod p)))) in
      (if neg then "-" else "") ++ ip
        ++ (match prec with O => "" | _ => "." ++ fp end)
  end.

(** [s.split(",")]: never empty, [""] splits into [[""]]. *)
Fixpoint split_on (sep : ascii) (s : list ascii) : list (list ascii) :=
  match s with
  | [] => [[]]
  | c :: t =>
      if (c =? sep)%char then [] :: split_on sep t
      else
        match split_on sep t with
        | w :: ws => (c :: w) :: ws
        | [] => [[c]]
        end
  end.

Definition split (sep : ascii) (s : string) : list string :=
  map str (split_on sep (chars s)).

(** [s.split()]: the maximal runs of non-whitespace characters. *)
Fixpoint split_ws_aux (cur : list ascii) (s : list ascii) : list (list ascii) :=
  match s with
  | [] => match cur with [] => [] | _ => [rev cur] end
  | c :: t =>
      if is_space c
      then match cur with
           | [] => split_ws_aux [] t
           | _ => rev cur :: split_ws_aux [] t
           end
      else split_ws_aux (c :: cur) t
  end.

Definition split_ws (s : string) : list string :=
  map str (split_ws_aux [] (chars s)).

(** [sep.join(l)] *)
Fixpoint join (sep : string) (l : list string) : string :=
  match l with
  | [] => ""
  | [x] => x
  | x :: t => x ++ sep ++ join sep t
  end.

(** [s[0]] and [s[-1]]: IndexError on the empty string. *)
Definition first_char (s : string) : result ascii :=
  match chars s with
  | c :: _ => Ok c
  | [] => Raise (IndexError "string index out of range")
  end.

Definition last_char (s : string) : result ascii :=
  match rev (chars s) with
  | c :: _ => Ok c
  | [] => Raise (IndexError "string index out of range")
  end.

(** [s[-2:]] *)
Definition last_two (s : string) : string :=
  let l := chars s in str (skipn (List.length l - 2) l).

(** [sub in s] *)
Fixpoint is_prefix (p s : list ascii) : bool :=
  match p, s with
  | [], _ => true
  | a :: p', b :: s' => (a =? b)%char && is_prefix p' s'
  | _ :: _, [] => false
  end.

Fixpoint contains_chars (p s : list ascii) : bool :=
  is_prefix p s ||
  match s with
  | [] => false
  | _ :: t => contains_chars p t
  end.

Definition contains (sub s : string) : bool :=
  contains_chars (chars sub) (chars s).

(** [re.findall(r"(<lit>\d)", s)]: the non-overlapping occurrences, from
    the left, of the literal followed by one digit. *)
Fixpoint findall_aux (lit : list ascii) (skip : nat) (s : list ascii)
  : list string :=
  match s with
  | [] => []
  | _ :: t =>
      match skip with
      | S k => findall_aux lit k t
      | O =>
          if is_prefix lit s then
            match nth_error s (List.length lit) with
            | Some d =>
                if is_digit d
                then str (lit ++ [d])%list :: findall_aux lit (List.length lit) t
                else findall_aux lit O t
            | None => findall_aux lit O t
            end
          else findall_aux lit O t
      end
  end.

Definition findall_lit_digit (lit s : string) : list string :=
  findall_aux (chars lit) O (chars s).

(** *** The [%] operator on strings

    The conversions the driver's format strings use: [%s], [%d], [%f] with
    an optional width and precision, and [%%]. *)
Inductive value : Type :=
| VStr (s : string)
| VInt (z : Z)
| VFloat (f : float).

Definition conv_s (v : value) : string :=
  match v with
  | VStr s => s
  | VInt z => string_of_Z z
  | VFloat f => format_f 6 f
  end.

Definition trunc_float (f : float) : result Z :=
  match f with
  | FFin neg M E =>
      let a := if 0 <=? E then M * 2 ^ E else M / 2 ^ (- E) in
      Ok (if neg then - a else a)
  | FInf _ => Raise (TypeError "cannot convert float infinity to integer")
  | FNan => Raise (TypeError "cannot convert float NaN to integer")
  end.

Definition conv_d (v : value) : result string :=
  match v with
  | VInt z => Ok (string_of_Z z)
  | VFloat f =>
      match trunc_float f with
      | Ok z => Ok (string_of_Z z)
      | Raise e => Raise e
      end
  | VStr _ => Raise (TypeError "%d format: a real number is required, not str")
  end.

Definition conv_f (prec : nat) (v : value) : result string :=
  match v with
  | VFloat f => Ok (format_f prec f)
  | VInt z => Ok (format_f prec (float_of_int z))
  | VStr _ => Raise (TypeError "must be real number, not str")
  end.

(** A conversion specification after the [%]: width, precision, the
    conversion character and the rest of the format. *)
Definition parse_spec (s : list ascii)
  : option (nat * option nat * ascii * list ascii) :=
  let (w, r1) := span_digits s in
  let width := Z.to_nat (digits_val w) in
  match r1 with
  | "."%char :: t =>
      let (p, r2) := span_digits t in
      match r2 with
      | c :: r3 => Some (width, Some (Z.to_nat (digits_val p)), c, r3)
      | [] => None
      end
  | c :: r2 => Some (width, None, c, r2)
  | [] => None
  end.

Definition truncate_to (p : option nat) (s : string) : string :=
  match p with
  | Some n => str (firstn n (chars s))
  | None => s
  end.

Definition padded (width : nat) (s : string) : string :=
  str (pad_left " " width (chars s)).

Fixpoint format_aux (fuel : nat) (fmt : list ascii) (args : list value)
  : result string :=
  match fuel with
  | O => Raise (ValueError "incomplete format")
  | S fuel' =>
      match fmt with
      | [] =>
          match args with
          | [] => Ok ""
          | _ :: _ =>
              Raise (TypeError
                "not all arguments converted during string formatting")
          end
      | "%"%char :: t =>
          match parse_spec t with
          | None => Raise (ValueError "incomplete format")
          | Some (width, prec, c, rest) =>
              if (c =? "%")%char then
                match format_aux fuel' rest args with
                | Ok s => Ok ("%" ++ s)
                | Raise e => Raise e
                end
              else
                match args with
                | [] => Raise (TypeError "not enough arguments for format string")
                | v :: args' =>
                    let piece :=
                      if (c =? "s")%char then Ok (truncate_to prec (conv_s v))
                      else if (c =? "d")%char then conv_d v
                      else if (c =? "f")%char
                      then conv_f (match prec with Some p => p | None => 6%nat end) v
                      else Raise (ValueError "unsupported format character") in
                    match piece with
                    | Raise e => Raise e
                    | Ok p =>
                        match format_aux fuel' rest args' with
                        | Ok s => Ok (padded width p ++ s)
                        | Raise e => Raise e
                        end
                    end
                end
          end
      | c :: t =>
          match format_aux fuel' t args with
          | Ok s => Ok (String c s)
          | Raise e => Raise e
          end
      end
  end.

(** [fmt % args]; the recursion consumes at least one character of the
    format per step, so its length plus one is fuel enough. *)
Definition format (fmt : string) (args : list value) : result string :=
  format_aux (S (String.length fmt)) (chars fmt) args.

End Py.

(** ** The parsed configuration: a [dict] of strings in insertion order *)

Module Dict.

Definition dict : Type := list (string * string).

Fixpoint get (k : string) (d : dict) : option string :=
  match d with
  | [] => None
  | (k', v) :: t => if String.eqb k' k then Some v else get k t
  end.

(** [d[k] = v]: a key already present keeps its place and takes the new
    value (the last one wins); a new key goes to the end. *)
Fixpoint set (k v : string) (d : dict) : dict :=
  match d with
  | [] => [(k, v)]
  | (k', v') :: t =>
      if String.eqb k' k then (k, v) :: t else (k', v') :: set k v t
  end.

(** [k in d] *)
Definition mem (k : string) (d : dict) : bool :=
  match get k d with
  | Some _ => true
  | None => false
  end.

Definition keys (d : dict) : list string := map fst d.

(** [str(d)], for the log only (quotes inside keys and values are not
    escaped). *)
Definition repr (d : dict) : string :=
  "{" ++ Py.join ", " (map (fun kv => "'" ++ fst kv ++ "': '" ++ snd kv ++ "'") d)
      ++ "}".

End Dict.

(** Modelled from the spec: [parseConfig], which [KS53230] inherits from
    [GenCounter] (driver/gencounter.py, not among the sources).  The text is
    split on whitespace; a token with exactly one [:] gives a key and a
    value, any other token is dropped; a repeated key takes the last value.
    The result is a plain mapping: looking up an absent key is a KeyError. *)
Definition parseConfig (cfgstr : string) : Dict.dict :=
  fold_left
    (fun d tok =>
       match Py.split ":" tok with
       | [k; v] => Dict.set k v d
       | _ => d
       end)
    (Py.split_ws cfgstr) [].

(** ** The engine's state and its monad *)

(** What the method does to the outside, in order: commands written to and
    queries made of the device session, sleeps, and lines printed. *)
Inductive event : Type :=
| Write (cmd : string)
| Query (cmd : string)
| Sleep (secs : Z)
| Print (text : string).

(** A call of [meas_out.addMeasures], with one or two arguments. *)
Inductive sample : Type :=
| Measure (v : Py.float)
| Stamped (tstamp : Z) (v : Py.float).

Record state : Type := mkState {
  savedTrigCfg : option string;
  savedTrigLev : option string;
  freq_rawcfg : option string;
  period_rawcfg : option string;
  trace : list event;
  meas_out : list sample
}.

(** The state [__init__] leaves, with an empty result container. *)
Definition init : state :=
  {| savedTrigCfg := None; savedTrigLev := None;
     freq_rawcfg := None; period_rawcfg := None;
     trace := []; meas_out := [] |}.

(** How a call ends: it returns, it raises, or the model's loop bound was
    not enough ([freq_never_unfinished] shows the last never happens). *)
Inductive outcome (A : Type) : Type :=
| Returns (a : A)
| Raises (e : Py.exn)
| Unfinished.
Arguments Returns {A} a.
Arguments Raises {A} e.
Arguments Unfinished {A}.

Definition M (A : Type) : Type := state -> outcome A * state.

Definition ret {A} (a : A) : M A := fun st => (Returns a, st).

Definition bind {A B} (m : M A) (k : A -> M B) : M B :=
  fun st =>
    match m st with
    | (Returns a, st') => k a st'
    | (Raises e, st') => (Raises e, st')
    | (Unfinished, st') => (Unfinished, st')
    end.

Definition raise {A} (e : Py.exn) : M A := fun st => (Raises e, st).

Definition unfinished {A} : M A := fun st => (Unfinished, st).

(** The value of a built-in, or its exception. *)
Definition lift {A} (r : Py.result A) : M A :=
  match r with
  | Py.Ok a => ret a
  | Py.Raise e => raise e
  end.

Declare Scope py_scope.
Delimit Scope py_scope with py.
Notation "x <- m ;; k" := (bind m (fun x => k))
  (at level 61, m at next level, right associativity) : py_scope.
Notation "m ;; k" := (bind m (fun _ => k))
  (at level 61, right associativity) : py_scope.
Local Open Scope py_scope.

(** [for x in l: body x] *)
Fixpoint for_each {A} (l : list A) (body : A -> M unit) : M unit :=
  match l with
  | [] => ret tt
  | x :: t => body x ;; for_each t body
  end.

(** [d[k]] *)
Definition getitem (d : Dict.dict) (k : string) : M string :=
  match Dict.get k d with
  | Some v => ret v
  | None => raise (Py.KeyError k)
  end.

Definition add_events (evs : list event) (st : state) : state :=
  {| savedTrigCfg := savedTrigCfg st; savedTrigLev := savedTrigLev st;
     freq_rawcfg := freq_rawcfg st; period_rawcfg := period_rawcfg st;
     trace := trace st ++ evs; meas_out := meas_out st |}.

Definition add_samples (l : list sample) (st : state) : state :=
  {| savedTrigCfg := savedTrigCfg st; savedTrigLev := savedTrigLev st;
     freq_rawcfg := freq_rawcfg st; period_rawcfg := period_rawcfg st;
     trace := trace st; meas_out := meas_out st ++ l |}.

Definition with_savedTrigCfg (v : option string) (st : state) : state :=
  {| savedTrigCfg := v; savedTrigLev := savedTrigLev st;
     freq_rawcfg := freq_rawcfg st; period_rawcfg := period_rawcfg st;
     trace := trace st; meas_out := meas_out st |}.

Definition with_freq_rawcfg (v : option string) (st : state) : state :=
  {| savedTrigCfg := savedTrigCfg st; savedTrigLev := savedTrigLev st;
     freq_rawcfg := v; period_rawcfg := period_rawcfg st;
     trace := trace st; meas_out := meas_out st |}.

Definition with_period_rawcfg (v : option string) (st : state) : state :=
  {| savedTrigCfg := savedTrigCfg st; savedTrigLev := savedTrigLev st;
     freq_rawcfg := freq_rawcfg st; period_rawcfg := v;
     trace := trace st; meas_out := meas_out st |}.

Definition emit (ev : event) : M unit :=
  fun st => (Returns tt, add_events [ev] st).

(** [self._drv.write(cmd)], the command being the value of a [%] expression. *)
Definition write (cmd : Py.result string) : M unit :=
  c <- lift cmd ;; emit (Write c).

Definition sleep (secs : Z) : M unit := emit (Sleep secs).

Definition print (text : string) : M unit := emit (Print text).

Definition addMeasures (s : sample) : M unit :=
  fun st => (Returns tt, add_samples [s] st).

Definition set_savedTrigCfg (v : option string) : M unit :=
  fun st => (Returns tt, with_savedTrigCfg v st).

Definition set_freq_rawcfg (v : option string) : M unit :=
  fun st => (Returns tt, with_freq_rawcfg v st).

Definition set_period_rawcfg (v : option string) : M unit :=
  fun st => (Returns tt, with_period_rawcfg v st).

Definition read {A} (f : state -> A) : M A := fun st => (Returns (f st), st).

(** A call of [self.logger.debug] or [self.logger.info]: the message is
    built (which can raise) and handed to the logger, whose output no
    theorem looks at. *)
Definition logger_log (msg : Py.result string) : M unit :=
  _ <- lift msg ;; ret tt.

(** The names bound at module level by the imports and definitions of
    ks53230.py: [import re], [import time], the two [from ... import] lines,
    [__meas_instr__] and the class itself. *)
Definition module_globals : list string :=
  ["re"; "time"; "GenCounter"; "Interfaces"; "KS53230_drv";
   "__meas_instr__"; "KS53230"].

(** Evaluating a global name that is no built-in. *)
Definition global (name : string) : M unit :=
  if existsb (String.eqb name) module_globals then ret tt
  else raise (Py.NameError name).

Definition nl : string := String (ascii_of_nat 10) "".
Definition tab : string := String (ascii_of_nat 9) "".

(** Class attributes: how many samples to read each time, and how long to
    wait between two reads. *)
Definition step : Z := 5.
Definition deadtime : Z := 1.

(** ** The class [KS53230] *)

Section KS53230.

(** The instrument: its reply to a query, given the traffic so far. *)
Variable answer : list event -> string -> string.

(** [time.strftime("%H%M%S", time.localtime())] at a point of the run. *)
Variable strftime_now : list event -> string.

(** Whether the logger handed to [__init__] has an attribute [Error]
    (a [logging.Logger] has [error], [info] and [debug], and no [Error]). *)
Variable logger_has_Error : bool.

(** [self._drv.query(cmd)] *)
Definition query (cmd : Py.result string) : M string :=
  c <- lift cmd ;;
  r <- read (fun st => answer (trace st) c) ;;
  emit (Query c) ;;
  ret r.

(** [self.logger.Error(msg)] *)
Definition logger_Error (msg : Py.result string) : M unit :=
  if logger_has_Error then logger_log msg
  else raise (Py.AttributeError "'Logger' object has no attribute 'Error'").

(** [k[-1]] as a string of one character. *)
Definition last (k : string) : M string :=
  c <- lift (Py.last_char k) ;; ret (String c "").

(** *** configureTrigger (lines 262-311) *)

(** [if "cnt" in cfgdict: ...] (lines 285-290) *)
Definition trigger_count (cfgdict : Dict.dict) : M unit :=
  if Dict.mem "cnt" cfgdict then
    v <- getitem cfgdict "cnt" ;;
    count <- lift (Py.int v) ;;
    (if (count <? 1) || (count >? 1000000) then
       msg <- lift (Py.format "Trigger Count out of limits (%d)" [Py.VInt count]) ;;
       raise (Py.AttributeError msg)
     else ret tt) ;;
    write (Py.format "TRIGGer:COUNt %d" [Py.VInt count])
  else ret tt.

(** [if "del" in cfgdict: ...] (lines 291-297) *)
Definition trigger_delay (cfgdict : Dict.dict) : M unit :=
  if Dict.mem "del" cfgdict then
    v <- getitem cfgdict "del" ;;
    delay <- lift (Py.int v) ;;
    (if (delay <? 0) || (delay >? 3600) then
       msg <- lift (Py.format "Trigger delay out of limits (%d)" [Py.VInt delay]) ;;
       raise (Py.AttributeError msg)
     else ret tt) ;;
    delay' <- lift (Py.format "%.6f" [Py.VInt delay]) ;;
    write (Py.format "TRIGGer:DELay %s" [Py.VStr delay'])
  else ret tt.

(** [if "sou" in cfgdict: ...] (lines 298-304) *)
Definition trigger_source (cfgdict : Dict.dict) : M unit :=
  if Dict.mem "sou" cfgdict then
    source <- getitem cfgdict "sou" ;;
    let valid_src := ["imm"; "bus"; "ext"] in
    (if negb (existsb (String.eqb source) valid_src) then
       msg <- lift (Py.format "Trigger source not valid (%s)" [Py.VStr source]) ;;
       raise (Py.AttributeError msg)
     else ret tt) ;;
    write (Py.format "TRIGGer:SOURce %s" [Py.VStr source])
  else ret tt.

(** [if "slo" in cfgdict: ...] (lines 305-311) *)
Definition trigger_slope (cfgdict : Dict.dict) : M unit :=
  if Dict.mem "slo" cfgdict then
    slope <- getitem cfgdict "slo" ;;
    let valid_slope := ["pos"; "neg"] in
    (if negb (existsb (String.eqb slope) valid_slope) then
       msg <- lift (Py.format "Trigger slope not valid (%s)" [Py.VStr slope]) ;;
       raise (Py.AttributeError msg)
     else ret tt) ;;
    write (Py.format "TRIGGer:SLOPe %s" [Py.VStr slope])
  else ret tt.

Definition configureTrigger (cfgstr : string) : M unit :=
  let cfgdict := parseConfig cfgstr in
  set_savedTrigCfg (Some cfgstr) ;;
  logger_log (Py.format "Config parsed: %s" [Py.VStr (Dict.repr cfgdict)]) ;;
  trigger_count cfgdict ;;
  trigger_delay cfgdict ;;
  trigger_source cfgdict ;;
  trigger_slope cfgdict.

(** *** trigLevel (lines 115-150) *)

(** The body of [for k in keys] (lines 136-150). *)
Definition trigLevel_channel (cfgdict : Dict.dict) (k : string) : M unit :=
  cur_t <- getitem cfgdict k ;;
  c0 <- lift (Py.first_char cur_t) ;;
  (if (c0 =? "a")%char then
     let percent := Py.last_two cur_t in
     ch <- last k ;;
     logger_log (Py.format "Mode auto for channel %s at %s\%"
                   [Py.VStr ch; Py.VStr percent])
   else
     volts <- lift (Py.float_ cur_t) ;;
     ch <- last k ;;
     logger_log (Py.format "Mode manual for channel %s at %fV"
                   [Py.VStr ch; Py.VFloat volts])) ;;
  ch <- last k ;;
  n <- lift (Py.int ch) ;;
  write (Py.format "INPUT%d:LEVEL:AUTO OFF" [Py.VInt n]) ;;
  ch <- last k ;;
  n <- lift (Py.int ch) ;;
  v <- getitem cfgdict k ;;
  volts <- lift (Py.float_ v) ;;
  write (Py.format "INPUT%d:LEVEL %1.3f" [Py.VInt n; Py.VFloat volts]) ;;
  ch <- last k ;;
  n <- lift (Py.int ch) ;;
  v <- getitem cfgdict k ;;
  volts <- lift (Py.float_ v) ;;
  logger_log (Py.format "Setting Trigger Level in channel %d to %1.3f"
                [Py.VInt n; Py.VFloat volts]).

Definition trigLevel (cfgstr : string) : M unit :=
  let cfgdict := parseConfig cfgstr in
  logger_log (Py.format "Config parsed: %s" [Py.VStr (Dict.repr cfgdict)]) ;;
  let keys := Py.join " " (Dict.keys cfgdict) in
  let keys := Py.findall_lit_digit "trig" keys in
  match keys with
  | [] => raise (Py.AttributeError "No valid params passed to trigLevel")
  | _ => for_each keys (trigLevel_channel cfgdict)
  end.

(** *** freq (lines 152-232) *)

(** Read strategy A (lines 201-209).  The body of [while ok & 0x1] ends in
    [int(ok = ...)], a call of [int] with a keyword argument, which raises
    once its argument (the query) has been evaluated: the body runs at most
    once. *)
Definition batch_read (samples : Z) : M unit :=
  r <- query (Py.Ok "*ESR?") ;;
  ok <- lift (Py.int r) ;;
  (if negb (Z.land ok 1 =? 0) then
     sleep 1 ;;
     _ <- query (Py.Ok "*ESR?") ;;
     raise (Py.TypeError "'ok' is an invalid keyword argument for int()")
   else ret tt) ;;
  meas <- query (Py.Ok "FETC?") ;;
  logger_log (Py.format ("%d samples:" ++ nl ++ "$s")
                [Py.VInt samples; Py.VStr meas]) ;;
  for_each (Py.split "," meas)
    (fun m => v <- lift (Py.float_ m) ;; addMeasures (Measure v)).

(** [while meas[k] != "+": k += 1] then [meas[k:]] (lines 222-225). *)
Fixpoint skip_header (meas : list ascii) : Py.result (list ascii) :=
  match meas with
  | [] => Py.Raise (Py.IndexError "string index out of range")
  | c :: t => if (c =? "+")%char then Py.Ok meas else skip_header t
  end.

(** [for m in meas.split(","): addMeasures(float(m)); readvalues += 1]
    (lines 226-228): the value of [readvalues] at the end. *)
Fixpoint add_values (toks : list string) (readvalues : Z) : M Z :=
  match toks with
  | [] => ret readvalues
  | m :: t =>
      v <- lift (Py.float_ m) ;;
      addMeasures (Measure v) ;;
      add_values t (readvalues + 1)
  end.

(** One round of the streaming loop (lines 218-231): the value of
    [readvalues]. *)
Definition stream_round : M Z :=
  meas <- query (Py.format "R? %d" [Py.VInt step]) ;;
  meas <- lift (skip_header (Py.chars meas)) ;;
  let meas := Py.str meas in
  readvalues <- add_values (Py.split "," meas) 0 ;;
  (if readvalues >? 0 then
     logger_log (Py.format ("%d most recent samples:" ++ nl ++ tab ++ "%s")
                   [Py.VInt readvalues; Py.VStr meas])
   else ret tt) ;;
  sleep deadtime ;;
  ret readvalues.

(** [while i < samples] (lines 217-232), at most [fuel] rounds. *)
Fixpoint stream_loop (fuel : nat) (samples i : Z) : M unit :=
  if i <? samples then
    match fuel with
    | O => unfinished
    | S fuel' =>
        readvalues <- stream_round ;;
        stream_loop fuel' samples (i + readvalues)
    end
  else ret tt.

(** Read strategy B (lines 211-232).  Every round that does not raise reads
    at least one value, so [samples] rounds are enough. *)
Definition stream_read (samples : Z) : M unit :=
  sleep deadtime ;;
  stream_loop (Z.to_nat samples) samples 0.

(** Lines 183-198: the commands that set the measurement up, ending in
    [INIT]; the value of [samples].  [trig] is [self._savedTrigCfg], which
    nothing assigns between the check of line 178 and line 191. *)
Definition freq_setup (cfgdict : Dict.dict) (trig : string) : M Z :=
  e <- getitem cfgdict "exp" ;;
  exp <- (if String.eqb e "" then ret "DEF" else getitem cfgdict "exp") ;;
  r <- getitem cfgdict "res" ;;
  res <- (if String.eqb r "" then ret "DEF"
          else r <- getitem cfgdict "res" ;; lift (Py.format "1e-%s" [Py.VStr r])) ;;
  ch <- getitem cfgdict "ch" ;;
  write (Py.format "CONF:FREQ %s,%s,(@%s)" [Py.VStr exp; Py.VStr res; Py.VStr ch]) ;;
  write (Py.Ok "SAMP:COUN 1") ;;
  s <- getitem cfgdict "sampl" ;;
  samples <- (if String.eqb s "" then ret 1
              else s <- getitem cfgdict "sampl" ;; lift (Py.int s)) ;;
  write (Py.format "TRIG:COUN %d" [Py.VInt samples]) ;;
  configureTrigger trig ;;
  lev <- read savedTrigLev ;;
  match lev with
  | Some l => trigLevel l
  | None => ret tt
  end ;;
  ch <- getitem cfgdict "ch" ;;
  cou <- getitem cfgdict "cou" ;;
  write (Py.format "INPUT%s:COUPLING %s" [Py.VStr ch; Py.VStr cou]) ;;
  write (Py.Ok "SENS:FREQ:GATE:TIME .1") ;;
  logger_log (Py.format "Taking %d samples of expected freq. at %s Hz"
                [Py.VInt samples; Py.VStr exp]) ;;
  write (Py.Ok "INIT") ;;
  ret samples.

(** Lines 183-232: what [freq] does once the trigger check has passed. *)
Definition freq_configured (cfgdict : Dict.dict) (breakread : bool)
    (trig : string) : M unit :=
  samples <- freq_setup cfgdict trig ;;
  if negb breakread || (samples =? 1) then batch_read samples
  else stream_read samples.

Definition freq (cfgstr : string) (breakread : bool) : M unit :=
  set_freq_rawcfg (Some cfgstr) ;;
  let cfgdict := parseConfig cfgstr in
  logger_log (Py.format "Config parsed: %s" [Py.VStr (Dict.repr cfgdict)]) ;;
  saved <- read savedTrigCfg ;;
  match saved with
  | None =>
      logger_Error
        (Py.Ok "The trigger must be configured before calling this method.") ;;
      raise (Py.Exception
               "Please configure the trigger system before calling this method.")
  | Some trig => freq_configured cfgdict breakread trig
  end.

(** *** period (lines 234-260) *)

(** The body of [for k in keys] (lines 253-260). *)
Definition period_channel (cfgstr k : string) : M unit :=
  ch <- last k ;;
  n <- lift (Py.int ch) ;;
  write (Py.format "CONF:PER DEF,DEF,(@%d)" [Py.VInt n]) ;;
  trigLevel cfgstr ;;
  ch <- last k ;;
  n <- lift (Py.int ch) ;;
  write (Py.format "INPUT%d:COUPLING DC" [Py.VInt n]) ;;
  write (Py.Ok "INIT") ;;
  sleep 3 ;;
  r <- query (Py.Ok "READ?") ;;
  print r ;;
  global "logging" ;;
  ch <- last k ;;
  n <- lift (Py.int ch) ;;
  logger_log (Py.format "Measuring Period in channel %d" [Py.VInt n]).

Definition period (cfgstr : string) : M unit :=
  set_period_rawcfg (Some cfgstr) ;;
  let cfgdict := parseConfig cfgstr in
  logger_log (Py.format "Config parsed: %s" [Py.VStr (Dict.repr cfgdict)]) ;;
  let keys := Py.join " " (Dict.keys cfgdict) in
  let keys := Py.findall_lit_digit "ch" keys in
  match keys with
  | [] => raise (Py.Exception "No valid params passed to period")
  | _ => for_each keys (period_channel cfgstr)
  end.

(** *** timeInterval (lines 313-368) *)

(** [ref_chan, other_chan = (1,2) if cfgdict["ref"] == "A" else (2,1)] *)
Definition ref_other_chan (ref : string) : Z * Z :=
  if String.eqb ref "A" then (1, 2) else (2, 1).

(** ['tstamp' in cfgstr and cfgdict["tstamp"] == "Y"] *)
Definition wants_tstamp (cfgstr : string) (cfgdict : Dict.dict) : M bool :=
  if Py.contains "tstamp" cfgstr then
    t <- getitem cfgdict "tstamp" ;; ret (String.eqb t "Y")
  else ret false.

(** The body of [while k < samples] (lines 360-368). *)
Definition timeInterval_read (cfgstr : string) (cfgdict : Dict.dict) : M unit :=
  stamp <- wants_tstamp cfgstr cfgdict ;;
  timest <- (if stamp
             then now <- read (fun st => strftime_now (trace st)) ;; ret (now ++ nl)
             else ret "") ;;
  cur <- query (Py.Ok "READ?") ;;
  stamp <- wants_tstamp cfgstr cfgdict ;;
  if stamp then
    t <- lift (Py.int timest) ;;
    v <- lift (Py.float_ cur) ;;
    addMeasures (Stamped t v)
  else
    v <- lift (Py.float_ cur) ;;
    addMeasures (Measure v).

(** [k = 0; while k < samples: ...; k += 1] *)
Fixpoint repeat_n (n : nat) (body : M unit) : M unit :=
  match n with
  | O => ret tt
  | S k => body ;; repeat_n k body
  end.

(** Lines 332-368: what [timeInterval] does after its first log line. *)
Definition timeInterval_body (cfgstr : string) (cfgdict : Dict.dict) : M unit :=
  ref <- getitem cfgdict "ref" ;;
  let (ref_chan, other_chan) := ref_other_chan ref in
  s <- getitem cfgdict "sampl" ;;
  samples <- lift (Py.int s) ;;
  write (Py.format "CONFIGURE:TINTERVAL (@%d),(@%d)"
           [Py.VInt ref_chan; Py.VInt other_chan]) ;;
  coup <- getitem cfgdict "coup" ;;
  write (Py.format "INPUT1:COUPLING %s" [Py.VStr coup]) ;;
  coup <- getitem cfgdict "coup" ;;
  write (Py.format "INPUT2:COUPLING %s" [Py.VStr coup]) ;;
  imp <- getitem cfgdict "imp" ;;
  f <- lift (Py.float_ imp) ;;
  write (Py.format "INPUT1:IMPedance %f" [Py.VFloat f]) ;;
  imp <- getitem cfgdict "imp" ;;
  f <- lift (Py.float_ imp) ;;
  write (Py.format "INPUT2:IMPedance %f" [Py.VFloat f]) ;;
  trigLevel cfgstr ;;
  write (Py.Ok "TRIG:COUNT 1") ;;
  write (Py.Ok "INIT") ;;
  repeat_n (Z.to_nat samples) (timeInterval_read cfgstr cfgdict).

(** Line 330 calls [logging.debug], and the module does not import
    [logging]. *)
Definition timeInterval (cfgstr : string) : M unit :=
  let cfgdict := parseConfig cfgstr in
  global "logging" ;;
  logger_log (Py.format "Config parsed: %s" [Py.VStr (Dict.repr cfgdict)]) ;;
  timeInterval_body cfgstr cfgdict.

End KS53230.

(** ** What [configureTrigger] decides for each key

    The four keys are checked one after the other, in the order [cnt],
    [del], [sou], [slo].  A key is absent, or valid (and its command is
    written at once), or rejected (and the call ends there). *)

Inductive verdict : Type :=
| Skip
| Emit (cmd : string)
| Reject (e : Py.exn).

Definition check_cnt (d : Dict.dict) : verdict :=
  match Dict.get "cnt" d with
  | None => Skip
  | Some v =>
      match Py.parse_int v with
      | None => Reject (Py.ValueError "invalid literal for int() with base 10")
      | Some count =>
          if (1 <=? count) && (count <=? 1000000)
          then Emit ("TRIGGer:COUNt " ++ Py.string_of_Z count)
          else Reject (Py.AttributeError
                         ("Trigger Count out of limits ("
                            ++ Py.string_of_Z count ++ ")"))
      end
  end.

Definition check_del (d : Dict.dict) : verdict :=
  match Dict.get "del" d with
  | None => Skip
  | Some v =>
      match Py.parse_int v with
      | None => Reject (Py.ValueError "invalid literal for int() with base 10")
      | Some delay =>
          if (0 <=? delay) && (delay <=? 3600)
          then Emit ("TRIGGer:DELay "
                       ++ Py.format_f 6 (Py.float_of_int delay))
          else Reject (Py.AttributeError
                         ("Trigger delay out of limits ("
                            ++ Py.string_of_Z delay ++ ")"))
      end
  end.

Definition check_sou (d : Dict.dict) : verdict :=
  match Dict.get "sou" d with
  | None => Skip
  | Some source =>
      if existsb (String.eqb source) ["imm"; "bus"; "ext"]
      then Emit ("TRIGGer:SOURce " ++ source)
      else Reject (Py.AttributeError
                     ("Trigger source not valid (" ++ source ++ ")"))
  end.

Definition check_slo (d : Dict.dict) : verdict :=
  match Dict.get "slo" d with
  | None => Skip
  | Some slope =>
      if existsb (String.eqb slope) ["pos"; "neg"]
      then Emit ("TRIGGer:SLOPe " ++ slope)
      else Reject (Py.AttributeError
                     ("Trigger slope not valid (" ++ slope ++ ")"))
  end.

Definition verdicts (d : Dict.dict) : list verdict :=
  [check_cnt d; check_del d; check_sou d; check_slo d].

(** The commands of the keys accepted before the first rejection. *)
Fixpoint emitted (vs : list verdict) : list string :=
  match vs with
  | [] => []
  | Skip :: t => emitted t
  | Emit c :: t => c :: emitted t
  | Reject _ :: _ => []
  end.

(** The first rejection, if there is one. *)
Fixpoint rejection (vs : list verdict) : option Py.exn :=
  match vs with
  | [] => None
  | Reject e :: _ => Some e
  | _ :: t => rejection t
  end.

(** What a verdict does to the call. *)
Definition apply_verdict (v : verdict) : M unit :=
  match v with
  | Skip => ret tt
  | Emit c => emit (Write c)
  | Reject e => raise e
  end.

(** How the call ends, after the verdicts. *)
Definition outcome_of (vs : list verdict) : outcome unit :=
  match rejection vs with
  | Some e => Raises e
  | None => Returns tt
  end.

Definition accepted (v : verdict) : Prop :=
  match v with
  | Reject _ => False
  | _ => True
  end.

(** The commands of a list of verdicts without rejection. *)
Fixpoint commands (vs : list verdict) : list string :=
  match vs with
  | [] => []
  | Emit c :: t => c :: commands t
  | _ :: t => commands t
  end.

(** A key whose value is out of range ([cnt], [del]) or not one of the
    recognized words ([sou], [slo]): the rejections with AttributeError. *)
Definition invalid_trigger_key (d : Dict.dict) : Prop :=
  exists msg, In (Reject (Py.AttributeError msg)) (verdicts d).

(** The values read by the rounds of the streaming loop, round by round. *)
Definition total (chunks : list (list Py.float)) : Z :=
  Z.of_nat (List.length (List.concat chunks)).

(** The tokens of a chunk up to the first that [float()] refuses. *)
Fixpoint parsed_prefix (toks : list string) : list Py.float :=
  match toks with
  | [] => []
  | m :: t =>
      match Py.parse_float m with
      | Some v => v :: parsed_prefix t
      | None => []
      end
  end.

Definition all_parse (toks : list string) : bool :=
  forallb (fun m => match Py.parse_float m with Some _ => true | None => false end)
    toks.

(** The computation keeps the relation [R] between the state before and the
    state after, and it ends (it returns or it raises). *)
Definition preserves (R : state -> state -> Prop) {A} (m : M A) : Prop :=
  forall st, R st (snd (m st)) /\ fst (m st) <> Unfinished.

(** The result container after a computation is the one before it. *)
Definition same_sink (st st' : state) : Prop := meas_out st' = meas_out st.

(** The failure of [freq] at the check of line 178: the exception of
    line 180 when the logger takes the call of line 179. *)
Definition not_configured (logger_has_Error : bool) : Py.exn :=
  if logger_has_Error
  then Py.Exception
         "Please configure the trigger system before calling this method."
  else Py.AttributeError "'Logger' object has no attribute 'Error'".

(** The parameters that lines 183-188 of [freq] resolve, when the four
    lookups succeed and [sampl] is empty or an integer literal: the expected
    value, the resolution, the channel and the number of samples. *)
Definition freq_parameters (d : Dict.dict)
  : option (string * string * string * Z) :=
  match Dict.get "exp" d, Dict.get "res" d, Dict.get "ch" d,
        Dict.get "sampl" d with
  | Some e, Some r, Some ch, Some s =>
      match (if String.eqb s "" then Some 1 else Py.parse_int s) with
      | Some samples =>
          Some (if String.eqb e "" then "DEF" else e,
                if String.eqb r "" then "DEF" else "1e-" ++ r,
                ch, samples)
      | None => None
      end
  | _, _, _, _ => None
  end.

(** An instrument for the examples: it answers the queries in turn from a
    list, and then with the empty string. *)
Definition count_queries (tr : list event) : nat :=
  List.length (filter (fun ev => match ev with Query _ => true | _ => false end) tr).

Definition scripted (replies : list string) : list event -> string -> string :=
  fun tr _ => nth (count_queries tr) replies "".

Definition noon : list event -> string := fun _ => "120000".

(** The state after a successful [configureTrigger("cnt:1")]. *)
Definition armed : state :=
  add_events [Write "TRIGGer:COUNt 1"] (with_savedTrigCfg (Some "cnt:1") init).

(** ** More of the class, and what the further theorems speak of *)

(** resetDevice (lines 105-113) *)
Definition resetDevice : M unit :=
  logger_log (Py.Ok "Device reset") ;;
  write (Py.Ok "*RST").

(** Lines 192-198 of [freq], after the call of [configureTrigger]: the
    trigger level if one is saved, the coupling, the gate time and [INIT];
    [exp] and [samples] are the values lines 183 and 188 gave. *)
Definition freq_setup_tail (cfgdict : Dict.dict) (exp : string) (samples : Z)
  : M Z :=
  lev <- read savedTrigLev ;;
  match lev with
  | Some l => trigLevel l
  | None => ret tt
  end ;;
  ch <- getitem cfgdict "ch" ;;
  cou <- getitem cfgdict "cou" ;;
  write (Py.format "INPUT%s:COUPLING %s" [Py.VStr ch; Py.VStr cou]) ;;
  write (Py.Ok "SENS:FREQ:GATE:TIME .1") ;;
  logger_log (Py.format "Taking %d samples of expected freq. at %s Hz"
                [Py.VInt samples; Py.VStr exp]) ;;
  write (Py.Ok "INIT") ;;
  ret samples.

(** The computation keeps the relation [R] between the state before and the
    state after, however it ends. *)
Definition keeps (R : state -> state -> Prop) {A} (m : M A) : Prop :=
  forall st, R st (snd (m st)).

(** The saved trigger level is the one before. *)
Definition same_level (st st' : state) : Prop :=
  savedTrigLev st' = savedTrigLev st.

(** A saved configuration [trig] is still saved. *)
Definition stays_configured (trig : string) (st st' : state) : Prop :=
  savedTrigCfg st = Some trig -> savedTrigCfg st' = Some trig.

(** The device has only been written to: no query, no sleep, no print. *)
Definition only_writes (st st' : state) : Prop :=
  exists cmds, trace st' = (trace st ++ map Write cmds)%list.

(** The traffic of [k] rounds of the streaming loop. *)
Fixpoint rounds (k : nat) : list event :=
  match k with
  | O => []
  | S k' => Query "R? 5" :: Sleep deadtime :: rounds k'
  end.

(** The key of channel [c] for [trigLevel], and its commands. *)
Definition trig_key (c : ascii) : string := "trig" ++ String c "".

Definition level_commands (c : ascii) (volts : Py.float) : list event :=
  [Write ("INPUT" ++ String c ":LEVEL:AUTO OFF");
   Write ("INPUT" ++ String c ":LEVEL " ++ Py.format_f 3 volts)].

(** Any two states: used to say only that a computation ends. *)
Definition anything (a b : state) : Prop := True.

(** ** The streaming read, told from the replies of the device *)

(** The values of a reply: what stands before its first [+] is the header,
    and the rest, split at the commas, are float literals, every one of
    them; [vs] are their values in the order of the reply. *)
Definition reply_values (reply : string) (vs : list Py.float) : Prop :=
  exists hdr tail,
    Py.chars reply = (hdr ++ "+"%char :: tail)%list
    /\ ~ In "+"%char hdr
    /\ map Py.parse_float (Py.split "," (Py.str ("+"%char :: tail)))
       = map Some vs.

(** The state after a round that has read the values [vs]: the query, the
    values in the result container, the wait. *)
Definition after_round (st : state) (vs : list Py.float) : state :=
  add_events [Sleep deadtime]
    (add_samples (map Measure vs) (add_events [Query "R? 5"] st)).

Definition after_rounds (st : state) (chunks : list (list Py.float)) : state :=
  fold_left after_round chunks st.

(** [chunks] are what the device answers to the successive rounds that
    start in [st]: each chunk is the whole reply of its round, the reply
    being the answer to [R? 5] after the traffic so far. *)
Fixpoint polled (answer : list event -> string -> string) (st : state)
    (chunks : list (list Py.float)) : Prop :=
  match chunks with
  | [] => True
  | vs :: rest =>
      reply_values (answer (trace st) "R? 5") vs
      /\ polled answer (after_round st vs) rest
  end.

(** A malformed reply, the exception it leads to, and the values that stand
    before the fault: a reply without [+] (IndexError, no value), or a
    reply whose tokens after the header are float literals up to a first
    token that is none (ValueError, the values of the literals before). *)
Inductive malformed (reply : string) : Py.exn -> list Py.float -> Prop :=
| no_header :
    ~ In "+"%char (Py.chars reply) ->
    malformed reply (Py.IndexError "string index out of range") []
| bad_token (hdr tail : list ascii) (good : list string) (bad : string)
    (rest : list string) (vs : list Py.float) :
    Py.chars reply = (hdr ++ "+"%char :: tail)%list ->
    ~ In "+"%char hdr ->
    Py.split "," (Py.str ("+"%char :: tail)) = (good ++ bad :: rest)%list ->
    map Py.parse_float good = map Some vs ->
    Py.parse_float bad = None ->
    malformed reply (Py.ValueError "could not convert string to float") vs.

(** ** period, channel by channel *)

(** The key of channel [c] for [period], and what lines 255-258 add to the
    traffic for it: the coupling, [INIT], the wait of three seconds, the
    query and the print of its [reply]. *)
Definition ch_key (c : ascii) : string := "ch" ++ String c "".

Definition period_reading (c : ascii) (reply : string) : list event :=
  [Write ("INPUT" ++ String c ":COUPLING DC"); Write "INIT"; Sleep 3;
   Query "READ?"; Print reply].

(** * Theorems *)

(** ** Text and formats *)

Lemma str_chars (s : string) : Py.str (Py.chars s) = s.
Proof. apply string_of_list_ascii_of_string. Qed.

Lemma append_nil_r (s : string) : s ++ "" = s.
Proof. induction s as [|c s IH]; simpl; [reflexivity | now rewrite IH]. Qed.

Ltac format_norm :=
  unfold Py.format;
  cbn -[Py.string_of_Z Py.format_f Py.float_of_int];
  unfold Py.chars;
  rewrite ?string_of_list_ascii_of_string, ?append_nil_r.

Lemma format_count (c : Z) :
  Py.format "TRIGGer:COUNt %d" [Py.VInt c]
  = Py.Ok ("TRIGGer:COUNt " ++ Py.string_of_Z c).
Proof. format_norm. reflexivity. Qed.

Lemma format_count_limits (c : Z) :
  Py.format "Trigger Count out of limits (%d)" [Py.VInt c]
  = Py.Ok ("Trigger Count out of limits (" ++ Py.string_of_Z c ++ ")").
Proof. format_norm. reflexivity. Qed.

Lemma format_delay_limits (c : Z) :
  Py.format "Trigger delay out of limits (%d)" [Py.VInt c]
  = Py.Ok ("Trigger delay out of limits (" ++ Py.string_of_Z c ++ ")").
Proof. format_norm. reflexivity. Qed.

Lemma format_delay_value (c : Z) :
  Py.format "%.6f" [Py.VInt c] = Py.Ok (Py.format_f 6 (Py.float_of_int c)).
Proof. format_norm. reflexivity. Qed.

Lemma format_delay (s : string) :
  Py.format "TRIGGer:DELay %s" [Py.VStr s] = Py.Ok ("TRIGGer:DELay " ++ s).
Proof. format_norm. reflexivity. Qed.

Lemma format_source (s : string) :
  Py.format "TRIGGer:SOURce %s" [Py.VStr s] = Py.Ok ("TRIGGer:SOURce " ++ s).
Proof. format_norm. reflexivity. Qed.

Lemma format_source_invalid (s : string) :
  Py.format "Trigger source not valid (%s)" [Py.VStr s]
  = Py.Ok ("Trigger source not valid (" ++ s ++ ")").
Proof. format_norm. reflexivity. Qed.

Lemma format_slope (s : string) :
  Py.format "TRIGGer:SLOPe %s" [Py.VStr s] = Py.Ok ("TRIGGer:SLOPe " ++ s).
Proof. format_norm. reflexivity. Qed.

Lemma format_slope_invalid (s : string) :
  Py.format "Trigger slope not valid (%s)" [Py.VStr s]
  = Py.Ok ("Trigger slope not valid (" ++ s ++ ")").
Proof. format_norm. reflexivity. Qed.

Lemma trigger_count_verdict (d : Dict.dict) (st : state) :
  trigger_count d st = apply_verdict (check_cnt d) st.
Proof.
  unfold trigger_count, check_cnt, Dict.mem, getitem.
  destruct (Dict.get "cnt" d) as [v|]; [|reflexivity].
  unfold bind at 1, ret at 1. unfold Py.int.
  destruct (Py.parse_int v) as [count|]; [|reflexivity].
  unfold lift at 1, bind at 1, ret at 1.
  rewrite format_count_limits, format_count.
  destruct (1 <=? count) eqn:H1, (count <=? 1000000) eqn:H2;
    destruct (count <? 1) eqn:H3, (count >? 1000000) eqn:H4;
    try reflexivity; exfalso; lia.
Qed.

Lemma trigger_delay_verdict (d : Dict.dict) (st : state) :
  trigger_delay d st = apply_verdict (check_del d) st.
Proof.
  unfold trigger_delay, check_del, Dict.mem, getitem.
  destruct (Dict.get "del" d) as [v|]; [|reflexivity].
  unfold bind at 1, ret at 1. unfold Py.int.
  destruct (Py.parse_int v) as [delay|]; [|reflexivity].
  unfold lift at 1, bind at 1, ret at 1.
  rewrite format_delay_limits, format_delay_value.
  unfold lift at 2. unfold bind at 3, ret at 2. rewrite format_delay.
  destruct (0 <=? delay) eqn:H1, (delay <=? 3600) eqn:H2;
    destruct (delay <? 0) eqn:H3, (delay >? 3600) eqn:H4;
    try reflexivity; exfalso; lia.
Qed.

Lemma trigger_source_verdict (d : Dict.dict) (st : state) :
  trigger_source d st = apply_verdict (check_sou d) st.
Proof.
  unfold trigger_source, check_sou, Dict.mem, getitem.
  destruct (Dict.get "sou" d) as [v|]; [|reflexivity].
  unfold bind at 1, ret at 1.
  rewrite format_source_invalid, format_source.
  destruct (existsb (String.eqb v) ["imm"; "bus"; "ext"]); reflexivity.
Qed.

Lemma trigger_slope_verdict (d : Dict.dict) (st : state) :
  trigger_slope d st = apply_verdict (check_slo d) st.
Proof.
  unfold trigger_slope, check_slo, Dict.mem, getitem.
  destruct (Dict.get "slo" d) as [v|]; [|reflexivity].
  unfold bind at 1, ret at 1.
  rewrite format_slope_invalid, format_slope.
  destruct (existsb (String.eqb v) ["pos"; "neg"]); reflexivity.
Qed.

(** ** States *)

Lemma add_events_nil (st : state) : add_events [] st = st.
Proof. destruct st; unfold add_events; simpl; now rewrite app_nil_r. Qed.

Lemma add_events_app (a b : list event) (st : state) :
  add_events b (add_events a st) = add_events (a ++ b) st.
Proof. unfold add_events; simpl; now rewrite app_assoc. Qed.

Lemma add_samples_nil (st : state) : add_samples [] st = st.
Proof. destruct st; unfold add_samples; simpl; now rewrite app_nil_r. Qed.

Lemma add_samples_app (a b : list sample) (st : state) :
  add_samples b (add_samples a st) = add_samples (a ++ b) st.
Proof. unfold add_samples; simpl; now rewrite app_assoc. Qed.

(** ** The monad *)

Lemma bind_inv_returns {A B} (m : M A) (k : A -> M B) st b st' :
  bind m k st = (Returns b, st') ->
  exists a st1, m st = (Returns a, st1) /\ k a st1 = (Returns b, st').
Proof.
  unfold bind; destruct (m st) as [[a|e|] st1]; intros H;
    [eauto | discriminate | discriminate].
Qed.

Lemma log_config_parsed (d : Dict.dict) (st : state) :
  logger_log (Py.format "Config parsed: %s" [Py.VStr (Dict.repr d)]) st
  = (Returns tt, st).
Proof. reflexivity. Qed.

(** ** configureTrigger, key by key *)

Lemma configureTrigger_spec (cfgstr : string) (st : state) :
  configureTrigger cfgstr st
  = (outcome_of (verdicts (parseConfig cfgstr)),
     add_events (map Write (emitted (verdicts (parseConfig cfgstr))))
       (with_savedTrigCfg (Some cfgstr) st)).
Proof.
  unfold configureTrigger, verdicts, outcome_of.
  set (d := parseConfig cfgstr).
  unfold bind at 1; unfold set_savedTrigCfg.
  unfold bind at 1; rewrite log_config_parsed.
  set (st0 := with_savedTrigCfg (Some cfgstr) st).
  unfold bind at 1; rewrite trigger_count_verdict.
  destruct (check_cnt d) as [|c1|e1]; cbn [apply_verdict ret emit raise emitted rejection map];
    [| |now rewrite add_events_nil];
    (unfold bind at 1; rewrite trigger_delay_verdict;
     destruct (check_del d) as [|c2|e2];
       cbn [apply_verdict ret emit raise emitted rejection map];
       [| |now rewrite ?add_events_nil];
       (unfold bind at 1; rewrite trigger_source_verdict;
        destruct (check_sou d) as [|c3|e3];
          cbn [apply_verdict ret emit raise emitted rejection map];
          [| |now rewrite ?add_events_app, ?add_events_nil];
          (rewrite trigger_slope_verdict;
           destruct (check_slo d) as [|c4|e4];
             cbn [apply_verdict ret emit raise emitted rejection map];
             unfold emit; now rewrite ?add_events_app, ?add_events_nil))).
Qed.

Lemma rejection_first (pre post : list verdict) (e : Py.exn) :
  Forall accepted pre -> rejection (pre ++ Reject e :: post) = Some e.
Proof.
  induction 1 as [|v pre Hv _ IH]; [reflexivity|].
  destruct v; simpl in *; [exact IH | exact IH | contradiction].
Qed.

Lemma emitted_first (pre post : list verdict) (e : Py.exn) :
  Forall accepted pre -> emitted (pre ++ Reject e :: post) = commands pre.
Proof.
  induction 1 as [|v pre Hv _ IH]; [reflexivity|].
  destruct v; simpl in *; [exact IH | now rewrite IH | contradiction].
Qed.

(** C1 (as amended): when the first key that fails its check, in the order
    cnt, del, sou, slo, is out of range or unrecognized, the call fails with
    AttributeError (the spec's InvalidParameter); it writes no command for
    that key or for any later one, and the commands of the valid keys
    checked before it have been written. *)
Theorem configureTrigger_first_invalid
    (cfgstr : string) (st : state)
    (pre : list verdict) (msg : string) (post : list verdict) :
  verdicts (parseConfig cfgstr)
  = (pre ++ Reject (Py.AttributeError msg) :: post)%list ->
  Forall accepted pre ->
  configureTrigger cfgstr st
  = (Raises (Py.AttributeError msg),
     add_events (map Write (commands pre))
       (with_savedTrigCfg (Some cfgstr) st)).
Proof.
  intros Hv Hpre. rewrite configureTrigger_spec. unfold outcome_of.
  rewrite Hv, (rejection_first _ _ _ Hpre), (emitted_first _ _ _ Hpre).
  reflexivity.
Qed.

Lemma configureTrigger_first_invalid_witness :
  configureTrigger "cnt:5 sou:foo" init
  = (Raises (Py.AttributeError "Trigger source not valid (foo)"),
     add_events (map Write (commands [Emit "TRIGGer:COUNt 5"; Skip]))
       (with_savedTrigCfg (Some "cnt:5 sou:foo") init)).
Proof.
  apply (configureTrigger_first_invalid "cnt:5 sou:foo" init
           [Emit "TRIGGer:COUNt 5"; Skip] "Trigger source not valid (foo)"
           [Skip]).
  - reflexivity.
  - repeat constructor.
Defined.

(** C1, counterexample: in "cnt:5 sou:foo" the source is not recognized, and
    the call has written the count command before it fails. *)
Lemma configureTrigger_not_all_or_nothing :
  invalid_trigger_key (parseConfig "cnt:5 sou:foo")
  /\ fst (configureTrigger "cnt:5 sou:foo" init)
     = Raises (Py.AttributeError "Trigger source not valid (foo)")
  /\ trace (snd (configureTrigger "cnt:5 sou:foo" init))
     = [Write "TRIGGer:COUNt 5"]
  /\ trace (snd (configureTrigger "cnt:5 sou:foo" init)) <> trace init.
Proof.
  split; [|split; [|split]].
  - exists "Trigger source not valid (foo)". vm_compute. tauto.
  - reflexivity.
  - reflexivity.
  - vm_compute. discriminate.
Qed.

(** The second sentence of the spec behind C1 holds: [cnt] is checked
    first, so a count out of range is rejected before any command. *)
Lemma configureTrigger_cnt_out_of_range
    (cfgstr v : string) (count : Z) (st : state) :
  Dict.get "cnt" (parseConfig cfgstr) = Some v ->
  Py.parse_int v = Some count ->
  count < 1 \/ 1000000 < count ->
  configureTrigger cfgstr st
  = (Raises (Py.AttributeError
               ("Trigger Count out of limits (" ++ Py.string_of_Z count ++ ")")),
     with_savedTrigCfg (Some cfgstr) st).
Proof.
  intros Hget Hint Hrange.
  rewrite configureTrigger_spec. unfold outcome_of, verdicts, check_cnt.
  rewrite Hget, Hint.
  replace ((1 <=? count) && (count <=? 1000000)) with false.
  - simpl. now rewrite add_events_nil.
  - symmetry. apply andb_false_iff. rewrite Z.leb_gt, Z.leb_gt. lia.
Qed.

(** ** The trigger delay *)

Lemma integer_delays_checked :
  forallb
    (fun k =>
       String.eqb (Py.format_f 6 (Py.float_of_int (Z.of_nat k)))
         (Py.string_of_Z (Z.of_nat k) ++ ".000000"))
    (seq 0 3601) = true.
Proof. vm_compute. reflexivity. Qed.

(** An integer delay is printed with six zeros after the point. *)
Lemma format_integer_delay (n : Z) :
  0 <= n <= 3600 ->
  Py.format_f 6 (Py.float_of_int n) = Py.string_of_Z n ++ ".000000".
Proof.
  intros Hn.
  pose proof integer_delays_checked as H.
  rewrite forallb_forall in H.
  specialize (H (Z.to_nat n)).
  rewrite Z2Nat.id in H by lia.
  apply String.eqb_eq, H, in_seq. lia.
Qed.

(** An integer delay within [0, 3600] is accepted, and its command carries
    the value with six decimals. *)
Lemma check_del_integer (d : Dict.dict) (v : string) (n : Z) :
  Dict.get "del" d = Some v ->
  Py.parse_int v = Some n ->
  0 <= n <= 3600 ->
  check_del d = Emit ("TRIGGer:DELay " ++ Py.string_of_Z n ++ ".000000").
Proof.
  intros Hget Hint Hn. unfold check_del. rewrite Hget, Hint.
  replace ((0 <=? n) && (n <=? 3600)) with true
    by (symmetry; apply andb_true_iff; rewrite !Z.leb_le; lia).
  now rewrite format_integer_delay.
Qed.

(** A delay that is no integer literal is refused by [int()], whatever its
    value, and no delay command is written. *)
Lemma check_del_not_integer (d : Dict.dict) (v : string) :
  Dict.get "del" d = Some v ->
  Py.parse_int v = None ->
  check_del d = Reject (Py.ValueError "invalid literal for int() with base 10").
Proof. intros Hget Hint. unfold check_del. now rewrite Hget, Hint. Qed.

Example configureTrigger_delay_5 (st : state) :
  configureTrigger "del:5" st
  = (Returns tt,
     add_events [Write "TRIGGer:DELay 5.000000"]
       (with_savedTrigCfg (Some "del:5") st)).
Proof. rewrite configureTrigger_spec. reflexivity. Qed.

(** C7, at the failing input: the delay 0.5 lies in [0, 3600], and the call
    ends in the ValueError of [int("0.5")] without a delay command. *)
Theorem configureTrigger_fractional_delay (st : state) :
  configureTrigger "del:0.5" st
  = (Raises (Py.ValueError "invalid literal for int() with base 10"),
     with_savedTrigCfg (Some "del:0.5") st).
Proof.
  rewrite configureTrigger_spec.
  replace (verdicts (parseConfig "del:0.5"))
    with [Skip; Reject (Py.ValueError "invalid literal for int() with base 10");
          Skip; Skip] by reflexivity.
  simpl. now rewrite add_events_nil.
Qed.

(** ** Relations that every step of a call keeps

    [R st st'] relates the state before a computation to the state after
    it.  The lemmas below are used with [same_sink]. *)

Section Preserved.

Variable R : state -> state -> Prop.
Hypothesis R_refl : forall st, R st st.
Hypothesis R_trans : forall a b c, R a b -> R b c -> R a c.

Local Abbreviation preserves := (preserves R).

Lemma preserves_ret {A} (a : A) : preserves (ret a).
Proof. intros st; split; [apply R_refl | discriminate]. Qed.

Lemma preserves_raise {A} (e : Py.exn) : preserves (@raise A e).
Proof. intros st; split; [apply R_refl | discriminate]. Qed.

Lemma preserves_lift {A} (r : Py.result A) : preserves (lift r).
Proof. destruct r; [apply preserves_ret | apply preserves_raise]. Qed.

Lemma preserves_read {A} (f : state -> A) : preserves (read f).
Proof. intros st; split; [apply R_refl | discriminate]. Qed.

Lemma preserves_bind {A B} (m : M A) (k : A -> M B) :
  preserves m -> (forall a, preserves (k a)) -> preserves (bind m k).
Proof.
  intros Hm Hk st. unfold bind. destruct (Hm st) as [HR Hfin].
  destruct (m st) as [[a|e|] st1]; simpl in *.
  - destruct (Hk a st1) as [HR' Hfin']. split; [|exact Hfin'].
    eapply R_trans; [exact HR | exact HR'].
  - split; [exact HR | discriminate].
  - contradiction.
Qed.

Lemma preserves_for_each {A} (l : list A) (body : A -> M unit) :
  (forall x, preserves (body x)) -> preserves (for_each l body).
Proof.
  intros Hb. induction l as [|x l IH]; simpl.
  - apply preserves_ret.
  - apply preserves_bind; [apply Hb | intros _; exact IH].
Qed.

Lemma preserves_repeat_n (n : nat) (body : M unit) :
  preserves body -> preserves (repeat_n n body).
Proof.
  intros Hb. induction n as [|n IH]; simpl.
  - apply preserves_ret.
  - apply preserves_bind; [exact Hb | intros _; exact IH].
Qed.

Lemma preserves_getitem (d : Dict.dict) (k : string) : preserves (getitem d k).
Proof.
  unfold getitem. destruct (Dict.get k d);
    [apply preserves_ret | apply preserves_raise].
Qed.

Lemma preserves_logger_log (msg : Py.result string) : preserves (logger_log msg).
Proof.
  unfold logger_log. apply preserves_bind;
    [apply preserves_lift | intros; apply preserves_ret].
Qed.

Lemma preserves_global (name : string) : preserves (global name).
Proof.
  unfold global. destruct (existsb _ _);
    [apply preserves_ret | apply preserves_raise].
Qed.

Lemma preserves_last (k : string) : preserves (last k).
Proof.
  unfold last. apply preserves_bind;
    [apply preserves_lift | intros; apply preserves_ret].
Qed.

Hypothesis R_events : forall evs st, R st (add_events evs st).
Hypothesis R_savedTrigCfg : forall v st, R st (with_savedTrigCfg v st).
Hypothesis R_freq_rawcfg : forall v st, R st (with_freq_rawcfg v st).
Hypothesis R_period_rawcfg : forall v st, R st (with_period_rawcfg v st).

Lemma preserves_emit (ev : event) : preserves (emit ev).
Proof. intros st; split; [apply R_events | discriminate]. Qed.

Lemma preserves_write (cmd : Py.result string) : preserves (write cmd).
Proof.
  unfold write. apply preserves_bind;
    [apply preserves_lift | intros; apply preserves_emit].
Qed.

Lemma preserves_query answer (cmd : Py.result string) :
  preserves (query answer cmd).
Proof.
  unfold query.
  apply preserves_bind; [apply preserves_lift | intros c].
  apply preserves_bind; [apply preserves_read | intros r].
  apply preserves_bind; [apply preserves_emit | intros _; apply preserves_ret].
Qed.

Lemma preserves_set_savedTrigCfg v : preserves (set_savedTrigCfg v).
Proof. intros st; split; [apply R_savedTrigCfg | discriminate]. Qed.

Lemma preserves_set_freq_rawcfg v : preserves (set_freq_rawcfg v).
Proof. intros st; split; [apply R_freq_rawcfg | discriminate]. Qed.

Lemma preserves_set_period_rawcfg v : preserves (set_period_rawcfg v).
Proof. intros st; split; [apply R_period_rawcfg | discriminate]. Qed.

Lemma preserves_logger_Error b msg : preserves (logger_Error b msg).
Proof.
  unfold logger_Error. destruct b;
    [apply preserves_logger_log | apply preserves_raise].
Qed.

(** One step of a proof that a method keeps [R]. *)
Ltac preserves_step :=
  first
    [ apply preserves_ret | apply preserves_raise
    | apply preserves_lift | apply preserves_read | apply preserves_getitem
    | apply preserves_logger_log | apply preserves_global | apply preserves_last
    | apply preserves_emit | apply preserves_write | apply preserves_query
    | apply preserves_set_savedTrigCfg | apply preserves_set_freq_rawcfg
    | apply preserves_set_period_rawcfg | apply preserves_logger_Error
    | apply preserves_bind; [|intro]
    | apply preserves_for_each; intro
    | apply preserves_repeat_n
    | match goal with
      | |- preserves (if ?b then _ else _) => destruct b
      | |- preserves (match ?x with _ => _ end) => destruct x
      end ].

Lemma preserves_configureTrigger (cfgstr : string) :
  preserves (configureTrigger cfgstr).
Proof.
  unfold configureTrigger, trigger_count, trigger_delay, trigger_source,
    trigger_slope.
  repeat preserves_step.
Qed.

Lemma preserves_trigLevel (cfgstr : string) : preserves (trigLevel cfgstr).
Proof.
  unfold trigLevel, trigLevel_channel. unfold sleep, print.
  repeat preserves_step.
Qed.

Lemma preserves_freq_setup (d : Dict.dict) (trig : string) :
  preserves (freq_setup d trig).
Proof.
  unfold freq_setup.
  repeat first
    [ apply preserves_configureTrigger | apply preserves_trigLevel
    | preserves_step ].
Qed.

End Preserved.

Lemma keeps_sink_configureTrigger cfgstr st :
  meas_out (snd (configureTrigger cfgstr st)) = meas_out st.
Proof.
  apply (preserves_configureTrigger same_sink); unfold same_sink;
    try reflexivity; intros; congruence.
Qed.

Lemma keeps_sink_freq_setup d trig st :
  meas_out (snd (freq_setup d trig st)) = meas_out st.
Proof.
  apply (preserves_freq_setup same_sink); unfold same_sink;
    try reflexivity; intros; congruence.
Qed.

Lemma freq_setup_finishes d trig st :
  fst (freq_setup d trig st) <> Unfinished.
Proof.
  apply (preserves_freq_setup same_sink); unfold same_sink;
    try reflexivity; intros; congruence.
Qed.

(** ** The trigger check of the measurement methods *)

Section Measurements.

Variable answer : list event -> string -> string.
Variable strftime_now : list event -> string.
Variable logger_has_Error : bool.

(** Without a saved configuration, [freq] stops at the check. *)
Lemma freq_fails_check (cfgstr : string) (breakread : bool) (st : state) :
  savedTrigCfg st = None ->
  freq answer logger_has_Error cfgstr breakread st
  = (Raises (not_configured logger_has_Error),
     with_freq_rawcfg (Some cfgstr) st).
Proof.
  intros Hnone. unfold freq.
  unfold bind at 1; unfold set_freq_rawcfg.
  unfold bind at 1; rewrite log_config_parsed.
  unfold bind at 1; unfold read.
  replace (savedTrigCfg (with_freq_rawcfg (Some cfgstr) st))
    with (@None string) by (symmetry; exact Hnone).
  unfold logger_Error, not_configured.
  destruct logger_has_Error; reflexivity.
Qed.

(** C2 (as amended): [freq] called while no trigger configuration is saved
    fails at the check of line 178, having sent nothing to the device and
    added nothing to the result container. *)
Theorem freq_not_configured (cfgstr : string) (breakread : bool) (st : state) :
  savedTrigCfg st = None ->
  fst (freq answer logger_has_Error cfgstr breakread st)
  = Raises (not_configured logger_has_Error)
  /\ trace (snd (freq answer logger_has_Error cfgstr breakread st)) = trace st
  /\ meas_out (snd (freq answer logger_has_Error cfgstr breakread st))
     = meas_out st.
Proof.
  intros Hnone. rewrite (freq_fails_check _ _ _ Hnone). repeat split.
Qed.

(** Once a configuration is saved, [freq] goes on with lines 183-232. *)
Lemma freq_passes_check (cfgstr trig : string) (breakread : bool) (st : state) :
  savedTrigCfg st = Some trig ->
  freq answer logger_has_Error cfgstr breakread st
  = freq_configured answer (parseConfig cfgstr) breakread trig
      (with_freq_rawcfg (Some cfgstr) st).
Proof.
  intros Hsome. unfold freq.
  unfold bind at 1; unfold set_freq_rawcfg.
  unfold bind at 1; rewrite log_config_parsed.
  unfold bind at 1; unfold read.
  replace (savedTrigCfg (with_freq_rawcfg (Some cfgstr) st))
    with (Some trig) by (symmetry; exact Hsome).
  reflexivity.
Qed.

(** ** The optional keys of [freq] *)

(** C5: with a trigger configured, a [freq] call whose configuration lacks
    [exp], [res] or [sampl] does not fall back on a default: the lookup of
    the absent key raises KeyError, and nothing is measured. *)
Theorem freq_optional_key_absent
    (cfgstr trig : string) (breakread : bool) (st : state) :
  savedTrigCfg st = Some trig ->
  Dict.get "exp" (parseConfig cfgstr) = None
  \/ Dict.get "res" (parseConfig cfgstr) = None
  \/ Dict.get "sampl" (parseConfig cfgstr) = None ->
  (exists k, fst (freq answer logger_has_Error cfgstr breakread st)
             = Raises (Py.KeyError k))
  /\ meas_out (snd (freq answer logger_has_Error cfgstr breakread st))
     = meas_out st.
Proof.
  intros Hsome Habsent.
  rewrite (freq_passes_check _ _ _ _ Hsome).
  set (d := parseConfig cfgstr) in *.
  set (st0 := with_freq_rawcfg (Some cfgstr) st).
  assert (Hset : exists k st1,
             freq_setup d trig st0 = (Raises (Py.KeyError k), st1)).
  { unfold freq_setup.
    unfold bind at 1, getitem at 1.
    destruct (Dict.get "exp" d) as [e|] eqn:He; [|do 2 eexists; reflexivity].
    unfold ret at 1.
    unfold bind at 1.
    assert (Hexp : exists exp,
               (if String.eqb e "" then ret "DEF" else getitem d "exp") st0
               = (Returns exp, st0)).
    { destruct (String.eqb e ""); [now eexists|].
      unfold getitem; rewrite He; now eexists. }
    destruct Hexp as [exp ->].
    unfold bind at 1, getitem at 1.
    destruct (Dict.get "res" d) as [r|] eqn:Hr; [|do 2 eexists; reflexivity].
    unfold ret at 1.
    unfold bind at 1.
    assert (Hres : exists res,
               (if String.eqb r "" then ret "DEF"
                else r0 <- getitem d "res" ;;
                     lift (Py.format "1e-%s" [Py.VStr r0])) st0
               = (Returns res, st0)).
    { destruct (String.eqb r ""); [now eexists|].
      unfold bind, getitem; rewrite Hr. unfold ret at 1.
      now eexists. }
    destruct Hres as [res ->].
    unfold bind at 1, getitem at 1.
    destruct (Dict.get "ch" d) as [ch|] eqn:Hch; [|do 2 eexists; reflexivity].
    unfold ret at 1.
    destruct Habsent as [H|[H|Hs]]; try discriminate.
    unfold bind at 1.
    assert (Hw : exists st1,
               write (Py.format "CONF:FREQ %s,%s,(@%s)"
                        [Py.VStr exp; Py.VStr res; Py.VStr ch]) st0
               = (Returns tt, st1)) by now eexists.
    destruct Hw as [st1 ->].
    unfold bind at 1. unfold write at 1, lift at 1, bind at 1, ret at 1, emit at 1.
    unfold bind at 1, getitem at 1. rewrite Hs. do 2 eexists; reflexivity. }
  destruct Hset as (k & st1 & Hset).
  split.
  - exists k. unfold freq_configured, bind. now rewrite Hset.
  - unfold freq_configured, bind.
    pose proof (keeps_sink_freq_setup d trig st0) as Hk.
    rewrite Hset in *. exact Hk.
Qed.

End Measurements.

Lemma freq_optional_key_absent_witness :
  (exists k, fst (freq (scripted []) false "ch:1 cou:ac" false armed)
             = Raises (Py.KeyError k))
  /\ meas_out (snd (freq (scripted []) false "ch:1 cou:ac" false armed))
     = meas_out armed.
Proof.
  apply (freq_optional_key_absent (scripted []) false "ch:1 cou:ac" "cnt:1"
           false armed).
  - reflexivity.
  - left. reflexivity.
Defined.

(** C5, at the failing input. *)
Example freq_without_exp :
  freq (scripted []) false "ch:1 cou:ac" false armed
  = (Raises (Py.KeyError "exp"), with_freq_rawcfg (Some "ch:1 cou:ac") armed).
Proof. reflexivity. Qed.

(** An empty value, on the other hand, is replaced by the default. *)
Example freq_empty_values :
  trace (snd (freq (scripted ["+0"; "+1.0"]) false
                "exp: res: ch:1 cou:ac sampl:" false armed))
  = [Write "TRIGGer:COUNt 1"; Write "CONF:FREQ DEF,DEF,(@1)";
     Write "SAMP:COUN 1"; Write "TRIG:COUN 1"; Write "TRIGGer:COUNt 1";
     Write "INPUT1:COUPLING ac"; Write "SENS:FREQ:GATE:TIME .1"; Write "INIT";
     Query "*ESR?"; Query "FETC?"].
Proof. vm_compute. reflexivity. Qed.

(** C2, counterexample: [period] makes no trigger check; called before any
    [configureTrigger] it sends its commands to the device. *)
Lemma period_without_trigger :
  savedTrigCfg init = None
  /\ fst (period (scripted ["+1.0E-8"]) "ch1:1 trig1:1.5" init)
     = Raises (Py.NameError "logging")
  /\ trace (snd (period (scripted ["+1.0E-8"]) "ch1:1 trig1:1.5" init))
     = [Write "CONF:PER DEF,DEF,(@1)"; Write "INPUT1:LEVEL:AUTO OFF";
        Write "INPUT1:LEVEL 1.500"; Write "INPUT1:COUPLING DC"; Write "INIT";
        Sleep 3; Query "READ?"; Print "+1.0E-8"].
Proof. vm_compute. repeat split. Qed.

Lemma freq_not_configured_witness :
  fst (freq (scripted []) true "ch:1 cou:ac" false init)
  = Raises (not_configured true)
  /\ trace (snd (freq (scripted []) true "ch:1 cou:ac" false init)) = trace init
  /\ meas_out (snd (freq (scripted []) true "ch:1 cou:ac" false init))
     = meas_out init.
Proof.
  apply (freq_not_configured (scripted []) true "ch:1 cou:ac" false init).
  reflexivity.
Defined.

(** ** trigLevel *)

(** C4, at the failing input: for the channel in auto mode the log message
    of line 141 is built with a format that ends in a lone [%]; the call
    raises ValueError before any command, and channel 2 is never reached. *)
Theorem trigLevel_auto_raises (st : state) :
  trigLevel "trig1:a50 trig2:2.5" st
  = (Raises (Py.ValueError "incomplete format"), st).
Proof. reflexivity. Qed.

(** A channel in manual mode gets its two commands. *)
Example trigLevel_manual (st : state) :
  trigLevel "trig2:2.5" st
  = (Returns tt,
     add_events [Write "INPUT2:LEVEL:AUTO OFF"; Write "INPUT2:LEVEL 2.500"] st).
Proof.
  change [Write "INPUT2:LEVEL:AUTO OFF"; Write "INPUT2:LEVEL 2.500"]
    with ([Write "INPUT2:LEVEL:AUTO OFF"] ++ [Write "INPUT2:LEVEL 2.500"])%list.
  rewrite <- add_events_app. reflexivity.
Qed.

(** ** timeInterval *)

(** C8: every call of [timeInterval] ends at line 330, in the NameError of
    the name [logging], before the channels are assigned and before any
    command. *)
Theorem timeInterval_raises_NameError
    (answer : list event -> string -> string)
    (strftime_now : list event -> string) (cfgstr : string) (st : state) :
  timeInterval answer strftime_now cfgstr st
  = (Raises (Py.NameError "logging"), st).
Proof. reflexivity. Qed.

(** The assignment of line 332 itself is the documented one. *)
Lemma ref_other_chan_A : ref_other_chan "A" = (1, 2).
Proof. reflexivity. Qed.

Lemma ref_other_chan_other (ref : string) :
  ref <> "A" -> ref_other_chan ref = (2, 1).
Proof.
  intros H. unfold ref_other_chan.
  destruct (String.eqb ref "A") eqn:E; [|reflexivity].
  apply String.eqb_eq in E. contradiction.
Qed.

(** What lines 332-368 would send, were they reached. *)
Example timeInterval_body_commands :
  trace (snd (timeInterval_body (scripted ["+1.5E-9"]) noon
                "ref:A sampl:1 coup:dc imp:50 trig1:1.0"
                (parseConfig "ref:A sampl:1 coup:dc imp:50 trig1:1.0") init))
  = [Write "CONFIGURE:TINTERVAL (@1),(@2)"; Write "INPUT1:COUPLING dc";
     Write "INPUT2:COUPLING dc"; Write "INPUT1:IMPedance 50.000000";
     Write "INPUT2:IMPedance 50.000000"; Write "INPUT1:LEVEL:AUTO OFF";
     Write "INPUT1:LEVEL 1.000"; Write "TRIG:COUNT 1"; Write "INIT";
     Query "READ?"].
Proof. vm_compute. reflexivity. Qed.

(** ** Read strategy A: the blocking batch read *)

Section BatchRead.

Variable answer : list event -> string -> string.
Variable logger_has_Error : bool.

Lemma query_ok (cmd : string) (st : state) :
  query answer (Py.Ok cmd) st
  = (Returns (answer (trace st) cmd), add_events [Query cmd] st).
Proof. reflexivity. Qed.

(** The log message of line 206 has one conversion and two arguments. *)
Lemma format_samples_raises (samples : Z) (meas : string) :
  Py.format ("%d samples:" ++ nl ++ "$s") [Py.VInt samples; Py.VStr meas]
  = Py.Raise (Py.TypeError
                "not all arguments converted during string formatting").
Proof.
  unfold Py.format, nl.
  cbn -[Py.string_of_Z Py.format_f Py.float_of_int].
  reflexivity.
Qed.

(** The batch read always ends in an exception, and the result container
    is as it was: when the status bit is set, line 204 raises TypeError
    after the second poll; when it is clear, line 206 raises TypeError
    after the fetch. *)
Lemma batch_read_raises (samples : Z) (st : state) :
  exists e evs, batch_read answer samples st = (Raises e, add_events evs st).
Proof.
  unfold batch_read.
  unfold bind at 1; rewrite query_ok.
  unfold bind at 1. unfold Py.int.
  destruct (Py.parse_int (answer (trace st) "*ESR?")) as [ok|].
  2:{ do 2 eexists; reflexivity. }
  unfold lift at 1, ret at 1.
  unfold bind at 1.
  destruct (negb (Z.land ok 1 =? 0)).
  - unfold bind at 1, sleep at 1, emit at 1.
    unfold bind at 1; rewrite query_ok.
    unfold raise. rewrite !add_events_app. do 2 eexists; reflexivity.
  - unfold ret at 1.
    unfold bind at 1; rewrite query_ok.
    unfold bind at 1, logger_log at 1.
    rewrite format_samples_raises.
    unfold lift at 1, bind at 1, raise at 1.
    rewrite !add_events_app. do 2 eexists; reflexivity.
Qed.

(** C6: in the blocking batch strategy ([breakread] false) every call of
    [freq] ends in an exception and appends nothing to the result
    container, for one poll as for two: the fetched values are never
    parsed. *)
Theorem freq_batch_never_appends (cfgstr : string) (st : state) :
  (exists e, fst (freq answer logger_has_Error cfgstr false st) = Raises e)
  /\ meas_out (snd (freq answer logger_has_Error cfgstr false st))
     = meas_out st.
Proof.
  destruct (savedTrigCfg st) as [trig|] eqn:Hsaved.
  - rewrite (freq_passes_check answer logger_has_Error _ _ _ _ Hsaved).
    unfold freq_configured, bind.
    pose proof (keeps_sink_freq_setup (parseConfig cfgstr) trig
                  (with_freq_rawcfg (Some cfgstr) st)) as Hk.
    pose proof (freq_setup_finishes (parseConfig cfgstr) trig
                  (with_freq_rawcfg (Some cfgstr) st)) as Hf.
    destruct (freq_setup (parseConfig cfgstr) trig
                (with_freq_rawcfg (Some cfgstr) st)) as [[samples|e|] st1];
      simpl in Hk, Hf.
    + cbn [negb orb].
      destruct (batch_read_raises samples st1) as (e & evs & ->).
      split; [now exists e | exact Hk].
    + split; [now exists e | exact Hk].
    + contradiction.
  - rewrite (freq_fails_check answer logger_has_Error _ _ _ Hsaved).
    split; [eexists; reflexivity | reflexivity].
Qed.

End BatchRead.

(** C6, at the failing inputs: one poll (status bit clear), then the fetch,
    then TypeError; two polls (status bit set), then TypeError without a
    fetch.  Nothing is appended. *)
Example freq_batch_one_poll :
  freq (scripted ["+0"; "+1.0,+2.0,+3.0"]) false
    "exp:10E6 res:5 ch:1 cou:ac sampl:3" false armed
  = (Raises (Py.TypeError
               "not all arguments converted during string formatting"),
     add_events
       [Write "CONF:FREQ 10E6,1e-5,(@1)"; Write "SAMP:COUN 1";
        Write "TRIG:COUN 3"; Write "TRIGGer:COUNt 1";
        Write "INPUT1:COUPLING ac"; Write "SENS:FREQ:GATE:TIME .1";
        Write "INIT"; Query "*ESR?"; Query "FETC?"]
       (with_savedTrigCfg (Some "cnt:1")
          (with_freq_rawcfg (Some "exp:10E6 res:5 ch:1 cou:ac sampl:3") armed))).
Proof. vm_compute. reflexivity. Qed.

Example freq_batch_two_polls :
  freq (scripted ["+1"; "+0"; "+1.0,+2.0,+3.0"]) false
    "exp:10E6 res:5 ch:1 cou:ac sampl:3" false armed
  = (Raises (Py.TypeError "'ok' is an invalid keyword argument for int()"),
     add_events
       [Write "CONF:FREQ 10E6,1e-5,(@1)"; Write "SAMP:COUN 1";
        Write "TRIG:COUN 3"; Write "TRIGGer:COUNt 1";
        Write "INPUT1:COUPLING ac"; Write "SENS:FREQ:GATE:TIME .1";
        Write "INIT"; Query "*ESR?"; Sleep 1; Query "*ESR?"]
       (with_savedTrigCfg (Some "cnt:1")
          (with_freq_rawcfg (Some "exp:10E6 res:5 ch:1 cou:ac sampl:3") armed))).
Proof. vm_compute. reflexivity. Qed.

(** ** Read strategy B: the streaming read *)

Lemma parsed_prefix_length (toks : list string) :
  all_parse toks = true ->
  List.length (parsed_prefix toks) = List.length toks.
Proof.
  induction toks as [|m t IH]; simpl; [reflexivity|].
  destruct (Py.parse_float m); [|discriminate].
  intros H. simpl. now rewrite IH.
Qed.

Lemma parsed_prefix_stops (good : list string) (bad : string)
    (rest : list string) (vs : list Py.float) :
  map Py.parse_float good = map Some vs ->
  Py.parse_float bad = None ->
  parsed_prefix (good ++ bad :: rest) = vs
  /\ all_parse (good ++ bad :: rest) = false.
Proof.
  revert vs. induction good as [|m good IH]; intros vs Hgood Hbad.
  - destruct vs; [|discriminate]. simpl. now rewrite Hbad.
  - destruct vs as [|v vs]; [discriminate|].
    simpl in Hgood. injection Hgood as Hm Hgood.
    destruct (IH vs Hgood Hbad) as [IH1 IH2].
    simpl. rewrite Hm. now rewrite IH1, IH2.
Qed.

Lemma add_values_spec (toks : list string) (readvalues : Z) (st : state) :
  add_values toks readvalues st
  = (if all_parse toks
     then Returns (readvalues + Z.of_nat (List.length toks))
     else Raises (Py.ValueError "could not convert string to float"),
     add_samples (map Measure (parsed_prefix toks)) st).
Proof.
  revert readvalues st.
  induction toks as [|m t IH]; intros readvalues st.
  - simpl. rewrite add_samples_nil, Z.add_0_r. reflexivity.
  - cbn [add_values all_parse forallb parsed_prefix].
    unfold bind at 1, Py.float_.
    destruct (Py.parse_float m) as [v|].
    + unfold lift, ret at 1. unfold bind at 1, addMeasures at 1.
      rewrite IH, add_samples_app.
      cbn [andb map app List.length].
      replace (readvalues + 1 + Z.of_nat (List.length t))
        with (readvalues + Z.of_nat (S (List.length t))) by lia.
      reflexivity.
    + cbn [andb map lift raise]. now rewrite add_samples_nil.
Qed.

Lemma split_not_nil (sep : ascii) (s : string) : Py.split sep s <> [].
Proof.
  unfold Py.split.
  assert (H : forall l, Py.split_on sep l <> []).
  { induction l as [|c l IH]; simpl; [discriminate|].
    destruct (Ascii.eqb c sep); [discriminate|].
    destruct (Py.split_on sep l); discriminate. }
  specialize (H (Py.chars s)).
  destruct (Py.split_on sep (Py.chars s)); [contradiction | discriminate].
Qed.

Lemma skip_header_none (meas : list ascii) :
  ~ In "+"%char meas ->
  skip_header meas = Py.Raise (Py.IndexError "string index out of range").
Proof.
  induction meas as [|c t IH]; intros Hno; [reflexivity|].
  simpl. destruct (Ascii.eqb c "+") eqn:E.
  - apply Ascii.eqb_eq in E. exfalso. apply Hno. left. exact E.
  - apply IH. intros Hin. apply Hno. now right.
Qed.

Lemma skip_header_found (hdr tail : list ascii) :
  ~ In "+"%char hdr ->
  skip_header (hdr ++ "+"%char :: tail) = Py.Ok ("+"%char :: tail).
Proof.
  induction hdr as [|c t IH]; intros Hno; [reflexivity|].
  simpl. destruct (Ascii.eqb c "+") eqn:E.
  - apply Ascii.eqb_eq in E. exfalso. apply Hno. left. exact E.
  - apply IH. intros Hin. apply Hno. now right.
Qed.

Lemma total_nil : total [] = 0.
Proof. reflexivity. Qed.

Lemma total_cons (c : list Py.float) (cs : list (list Py.float)) :
  total (c :: cs) = Z.of_nat (List.length c) + total cs.
Proof. unfold total. simpl. rewrite length_app. lia. Qed.

Lemma all_parsed (toks : list string) (vs : list Py.float) :
  map Py.parse_float toks = map Some vs ->
  all_parse toks = true /\ parsed_prefix toks = vs
  /\ List.length toks = List.length vs.
Proof.
  revert vs. induction toks as [|m t IH]; intros vs H.
  - destruct vs; [repeat split | discriminate].
  - destruct vs as [|v vs]; [discriminate|].
    simpl in H. injection H as Hm Ht.
    destruct (IH vs Ht) as (H1 & H2 & H3).
    simpl. rewrite Hm, H1, H2, H3. repeat split.
Qed.

Section StreamRead.

Variable answer : list event -> string -> string.
Variable logger_has_Error : bool.

Lemma format_recent (n : Z) (meas : string) :
  exists s,
    Py.format ("%d most recent samples:" ++ nl ++ tab ++ "%s")
      [Py.VInt n; Py.VStr meas] = Py.Ok s.
Proof.
  unfold Py.format, nl, tab.
  cbn -[Py.string_of_Z Py.format_f Py.float_of_int].
  eexists; reflexivity.
Qed.

(** One round: the query, then either the IndexError of the header scan,
    or the values of the tokens up to the first that is no number. *)
Lemma stream_round_spec (st : state) :
  stream_round answer st
  = match skip_header (Py.chars (answer (trace st) "R? 5")) with
    | Py.Raise e => (Raises e, add_events [Query "R? 5"] st)
    | Py.Ok body =>
        let toks := Py.split "," (Py.str body) in
        let st1 := add_samples (map Measure (parsed_prefix toks))
                     (add_events [Query "R? 5"] st) in
        if all_parse toks
        then (Returns (Z.of_nat (List.length toks)),
              add_events [Sleep deadtime] st1)
        else (Raises (Py.ValueError "could not convert string to float"), st1)
    end.
Proof.
  unfold stream_round.
  replace (Py.format "R? %d" [Py.VInt step]) with (Py.Ok "R? 5") by reflexivity.
  unfold bind at 1; rewrite query_ok.
  unfold bind at 1.
  destruct (skip_header (Py.chars (answer (trace st) "R? 5"))) as [body|e];
    [|reflexivity].
  unfold lift at 1, ret at 1.
  unfold bind at 1; rewrite add_values_spec.
  cbn zeta.
  destruct (all_parse (Py.split "," (Py.str body))) eqn:Hall; [|reflexivity].
  rewrite Z.add_0_l.
  assert (Hpos : (Z.of_nat (List.length (Py.split "," (Py.str body))) >? 0) = true).
  { pose proof (split_not_nil "," (Py.str body)) as Hne.
    destruct (Py.split "," (Py.str body)); [contradiction|].
    simpl List.length. apply Z.gtb_lt. lia. }
  rewrite Hpos.
  destruct (format_recent (Z.of_nat (List.length (Py.split "," (Py.str body))))
              (Py.str body)) as [s Hs].
  unfold bind at 1, logger_log at 1. rewrite Hs.
  reflexivity.
Qed.

(** A round that returns has read at least one value, all of them appended. *)
Lemma stream_round_returns (st st1 : state) (n : Z) :
  stream_round answer st = (Returns n, st1) ->
  exists vs, vs <> [] /\ n = Z.of_nat (List.length vs)
             /\ meas_out st1 = (meas_out st ++ map Measure vs)%list.
Proof.
  rewrite stream_round_spec.
  destruct (skip_header _) as [body|e]; [|discriminate].
  cbn zeta.
  destruct (all_parse (Py.split "," (Py.str body))) eqn:Hall; [|discriminate].
  intros H. injection H as Hn Hst.
  exists (parsed_prefix (Py.split "," (Py.str body))).
  pose proof (parsed_prefix_length _ Hall) as Hlen.
  pose proof (split_not_nil "," (Py.str body)) as Hne.
  repeat split.
  - intros Hnil. rewrite Hnil in Hlen.
    destruct (Py.split "," (Py.str body)); [contradiction | discriminate].
  - now rewrite Hlen.
  - now subst st1.
Qed.

Lemma stream_round_finishes (st : state) :
  fst (stream_round answer st) <> Unfinished.
Proof.
  rewrite stream_round_spec.
  destruct (skip_header _); [|discriminate].
  cbn zeta. destruct (all_parse _); discriminate.
Qed.

(** The loop ends within [samples - i] rounds. *)
Lemma stream_loop_finishes (fuel : nat) (samples i : Z) (st : state) :
  (Z.to_nat (samples - i) <= fuel)%nat ->
  fst (stream_loop answer fuel samples i st) <> Unfinished.
Proof.
  revert i st. induction fuel as [|fuel IH]; intros i st Hfuel.
  - simpl. destruct (i <? samples) eqn:Hlt; [|discriminate].
    apply Z.ltb_lt in Hlt. lia.
  - simpl. destruct (i <? samples) eqn:Hlt; [|discriminate].
    apply Z.ltb_lt in Hlt.
    unfold bind.
    pose proof (stream_round_finishes st) as Hfin.
    destruct (stream_round answer st) as [[n|e|] st1] eqn:Hround;
      [| discriminate | contradiction].
    destruct (stream_round_returns _ _ _ Hround) as (vs & Hne & Hn & _).
    apply IH. destruct vs; [contradiction|]. simpl List.length in Hn. lia.
Qed.

(** The header scan, read backwards: what it returns starts at the first
    [+] of the reply. *)
Lemma skip_header_inv (l body : list ascii) :
  skip_header l = Py.Ok body ->
  exists hdr tail,
    l = (hdr ++ "+"%char :: tail)%list /\ ~ In "+"%char hdr
    /\ body = "+"%char :: tail.
Proof.
  induction l as [|c t IH]; [discriminate|].
  simpl. destruct (Ascii.eqb c "+") eqn:E.
  - intros H. injection H as <-. apply Ascii.eqb_eq in E. subst c.
    exists [], t. split; [reflexivity|]. split; [|reflexivity].
    intros [].
  - intros H. destruct (IH H) as (hdr & tail & -> & Hn & ->).
    exists (c :: hdr), tail. split; [reflexivity|]. split; [|reflexivity].
    intros [Hc|Hin]; [|auto].
    subst c. rewrite Ascii.eqb_refl in E. discriminate.
Qed.

Lemma all_parse_values (toks : list string) :
  all_parse toks = true ->
  map Py.parse_float toks = map Some (parsed_prefix toks).
Proof.
  induction toks as [|m t IH]; [reflexivity|].
  unfold all_parse. simpl.
  destruct (Py.parse_float m) as [v|]; [|discriminate].
  simpl. intros H. f_equal. now apply IH.
Qed.


Lemma meas_out_after_rounds (chunks : list (list Py.float)) (st : state) :
  meas_out (after_rounds st chunks)
  = (meas_out st ++ map Measure (List.concat chunks))%list.
Proof.
  revert st. induction chunks as [|vs chunks IH]; intros st.
  - simpl. now rewrite app_nil_r.
  - unfold after_rounds in *. simpl fold_left. rewrite IH.
    simpl. now rewrite map_app, app_assoc.
Qed.



(** Among tokens one of which is no float literal there is a first such,
    and the tokens before it have values. *)
Lemma first_bad_token (toks : list string) :
  all_parse toks = false ->
  exists good bad rest vs,
    toks = (good ++ bad :: rest)%list
    /\ map Py.parse_float good = map Some vs
    /\ Py.parse_float bad = None.
Proof.
  induction toks as [|m t IH]; [discriminate|].
  unfold all_parse. simpl.
  destruct (Py.parse_float m) as [v|] eqn:Hm.
  - simpl. intros H. destruct (IH H) as (good & bad & rest & vs & -> & Hg & Hb).
    exists (m :: good), bad, rest, (v :: vs).
    split; [reflexivity|]. split; [|exact Hb]. simpl. now rewrite Hm, Hg.
  - intros _. exists [], m, t, []. repeat split. exact Hm.
Qed.

(** Every reply is either read whole or malformed: without a [+], or with
    a token after the header that is no float literal. *)
Lemma reply_read_or_malformed (reply : string) :
  (exists vs, reply_values reply vs) \/ (exists e vs, malformed reply e vs).
Proof.
  destruct (skip_header (Py.chars reply)) as [body|e] eqn:Hskip.
  - destruct (skip_header_inv _ _ Hskip) as (hdr & tail & Hreply & Hhdr & ->).
    destruct (all_parse (Py.split "," (Py.str ("+"%char :: tail)))) eqn:Hall.
    + left. eexists. exists hdr, tail.
      split; [exact Hreply|]. split; [exact Hhdr|].
      now apply all_parse_values.
    + right. destruct (first_bad_token _ Hall)
        as (good & bad & rest & vs & Hsplit & Hg & Hb).
      do 2 eexists. exact (bad_token _ _ _ _ _ _ _ Hreply Hhdr Hsplit Hg Hb).
  - right. do 2 eexists. apply no_header.
    intros Hin. apply in_split in Hin. destruct Hin as (hdr & tail & Hreply).
    revert Hskip. rewrite Hreply. clear.
    induction hdr as [|c hdr IH]; simpl; [discriminate|].
    destruct (Ascii.eqb c "+"); [discriminate | exact IH].
Qed.

(** A reply that is read whole makes a round that returns. *)
Lemma stream_round_reads (st : state) (vs : list Py.float) :
  reply_values (answer (trace st) "R? 5") vs ->
  vs <> []
  /\ stream_round answer st
     = (Returns (Z.of_nat (List.length vs)), after_round st vs).
Proof.
  intros (hdr & tail & Hreply & Hhdr & Hvals).
  destruct (all_parsed _ _ Hvals) as (Hall & Hpre & Hlen).
  split.
  - intros ->. apply (split_not_nil "," (Py.str ("+"%char :: tail))).
    now apply length_zero_iff_nil.
  - rewrite stream_round_spec, Hreply, (skip_header_found _ _ Hhdr).
    cbn zeta. rewrite Hall, Hpre, Hlen. reflexivity.
Qed.

Lemma total_nonneg (chunks : list (list Py.float)) : 0 <= total chunks.
Proof. unfold total. lia. Qed.

(** The loop after [chunks] were read whole and before [samples] values
    were reached: a malformed reply ends it with its exception. *)
Lemma stream_loop_aborts (chunks : list (list Py.float)) :
  forall (fuel : nat) (samples i : Z) (st : state)
         (e : Py.exn) (vs : list Py.float),
    (List.length chunks < fuel)%nat ->
    polled answer st chunks ->
    i + total chunks < samples ->
    malformed (answer (trace (after_rounds st chunks)) "R? 5") e vs ->
    stream_loop answer fuel samples i st
    = (Raises e,
       add_samples (map Measure vs)
         (add_events [Query "R? 5"] (after_rounds st chunks))).
Proof.
  induction chunks as [|c chunks IH]; intros fuel samples i st e vs
    Hfuel Hpolled Hlt Hbad.
  - destruct fuel as [|fuel]; [inversion Hfuel|].
    rewrite total_nil, Z.add_0_r in Hlt. apply Z.ltb_lt in Hlt.
    unfold after_rounds in *. simpl fold_left in *.
    simpl. rewrite Hlt. unfold bind. rewrite stream_round_spec.
    destruct Hbad
      as [Hno | hdr tail good bad rest vs Hreply Hhdr Hsplit Hgood Hb].
    + rewrite (skip_header_none _ Hno).
      unfold add_samples, add_events; simpl. now rewrite app_nil_r.
    + rewrite Hreply, (skip_header_found _ _ Hhdr).
      cbn zeta. rewrite Hsplit.
      destruct (parsed_prefix_stops good bad rest vs Hgood Hb) as [-> ->].
      reflexivity.
  - destruct fuel as [|fuel]; [inversion Hfuel|].
    destruct Hpolled as [Hc Hpolled].
    destruct (stream_round_reads _ _ Hc) as [_ Hround].
    rewrite total_cons in Hlt.
    pose proof (total_nonneg chunks) as Hpos.
    assert (Hi : (i <? samples) = true) by (apply Z.ltb_lt; lia).
    simpl stream_loop. rewrite Hi. unfold bind. rewrite Hround.
    apply IH.
    + simpl in Hfuel. lia.
    + exact Hpolled.
    + lia.
    + exact Hbad.
Qed.

(** C9: in any round of the streaming loop, a reply without [+] raises
    IndexError, and a reply with a token that is no number raises
    ValueError (the two are what the spec calls MalformedValue).  The
    rounds before it have read their replies whole ([chunks]); the
    exception ends the loop there, after the query and before the wait of
    the round; the result container holds what it held at the start, the
    values of the rounds before and the values of the tokens before the bad
    one, and nothing is taken back. *)
Theorem stream_loop_malformed_chunk
    (fuel : nat) (samples i : Z) (st : state)
    (chunks : list (list Py.float)) (e : Py.exn) (vs : list Py.float) :
  (List.length chunks < fuel)%nat ->
  polled answer st chunks ->
  i + total chunks < samples ->
  malformed (answer (trace (after_rounds st chunks)) "R? 5") e vs ->
  stream_loop answer fuel samples i st
  = (Raises e,
     add_samples (map Measure vs)
       (add_events [Query "R? 5"] (after_rounds st chunks)))
  /\ meas_out (snd (stream_loop answer fuel samples i st))
     = (meas_out st ++ map Measure (List.concat chunks ++ vs))%list.
Proof.
  intros Hfuel Hpolled Hlt Hbad.
  rewrite (stream_loop_aborts chunks fuel samples i st e vs
             Hfuel Hpolled Hlt Hbad).
  split; [reflexivity|].
  cbn [snd add_samples add_events meas_out].
  now rewrite meas_out_after_rounds, map_app, app_assoc.
Qed.

(** The same for the whole streaming read, whose rounds are enough for any
    number of whole replies short of [samples]. *)
Lemma stream_read_malformed_chunk
    (samples : Z) (st : state)
    (chunks : list (list Py.float)) (e : Py.exn) (vs : list Py.float) :
  polled answer (add_events [Sleep deadtime] st) chunks ->
  total chunks < samples ->
  malformed
    (answer (trace (after_rounds (add_events [Sleep deadtime] st) chunks))
       "R? 5") e vs ->
  stream_read answer samples st
  = (Raises e,
     add_samples (map Measure vs)
       (add_events [Query "R? 5"]
          (after_rounds (add_events [Sleep deadtime] st) chunks))).
Proof.
  intros Hpolled Hlt Hbad.
  unfold stream_read, bind, sleep, emit.
  apply stream_loop_aborts; [|exact Hpolled|lia|exact Hbad].
  assert (Hlen : forall cs s, polled answer s cs ->
                   Z.of_nat (List.length cs) <= total cs).
  { induction cs as [|c cs IHcs]; intros s Hp.
    - rewrite total_nil. simpl. lia.
    - destruct Hp as [Hc Hp].
      destruct (stream_round_reads _ _ Hc) as [Hne _].
      specialize (IHcs _ Hp). rewrite total_cons.
      destruct c; [contradiction|]. simpl List.length. lia. }
  specialize (Hlen _ _ Hpolled). lia.
Qed.

End StreamRead.



(** Chunks of 5, 3, 5 and 2 values for 14 samples: 15 values are appended. *)
Example freq_streaming_irregular :
  List.length
    (meas_out
       (snd (freq (scripted ["+1,+2,+3,+4,+5"; "+6,+7,+8"; "+9,+10,+11,+12,+13";
                             "+14,+15"; "+16"]) false
               "exp:10E6 res:5 ch:1 cou:ac sampl:14" true armed)))
  = 15%nat.
Proof. vm_compute. reflexivity. Qed.

Lemma stream_loop_malformed_chunk_witness :
  stream_loop (scripted ["#13+1.5"; "#18+2.5,oops,+3.5"]) 3 3 0 init
  = (Raises (Py.ValueError "could not convert string to float"),
     add_samples (map Measure [Py.FFin false 5629499534213120 (-51)])
       (add_events [Query "R? 5"]
          (after_rounds init [[Py.FFin false 6755399441055744 (-52)]])))
  /\ meas_out
       (snd (stream_loop (scripted ["#13+1.5"; "#18+2.5,oops,+3.5"]) 3 3 0 init))
     = (meas_out init
        ++ map Measure
             (List.concat [[Py.FFin false 6755399441055744 (-52)]]
              ++ [Py.FFin false 5629499534213120 (-51)]))%list.
Proof.
  apply (stream_loop_malformed_chunk
           (scripted ["#13+1.5"; "#18+2.5,oops,+3.5"]) 3 3 0 init
           [[Py.FFin false 6755399441055744 (-52)]]).
  - simpl. lia.
  - split; [|exact I].
    exists (Py.chars "#13"), (Py.chars "1.5").
    split; [reflexivity|]. split; [|reflexivity].
    vm_compute. intuition discriminate.
  - vm_compute. reflexivity.
  - apply (bad_token _ (Py.chars "#18") (Py.chars "2.5,oops,+3.5")
             ["+2.5"] "oops" ["+3.5"]).
    + reflexivity.
    + vm_compute. intuition discriminate.
    + reflexivity.
    + reflexivity.
    + reflexivity.
Defined.

(** C9, the other fault: a reply without [+]. *)
Example stream_loop_no_header :
  stream_loop (scripted ["no header"]) 1 2 0 init
  = (Raises (Py.IndexError "string index out of range"),
     add_events [Query "R? 5"] init).
Proof. vm_compute. reflexivity. Qed.

(** [float()] does not strip the separators FS, GS, RS and US: a token
    that ends in one of them is a bad token, and the round ends there with
    the one value read before it. *)
Example stream_loop_separator_in_token :
  stream_loop
    (scripted ["#215+1.0,+2.0" ++ String (ascii_of_nat 28) ",oops"]) 1 3 0 init
  = (Raises (Py.ValueError "could not convert string to float"),
     add_samples (map Measure [Py.FFin false 4503599627370496 (-52)])
       (add_events [Query "R? 5"] init)).
Proof. vm_compute. reflexivity. Qed.

Example literal_whitespace :
  Py.parse_float ("+2.0" ++ String (ascii_of_nat 28) "") = None
  /\ Py.parse_int (String (ascii_of_nat 28) "5") = None
  /\ Py.parse_float (" +2.0" ++ nl) = Some (Py.FFin false 4503599627370496 (-51))
  /\ Py.parse_int (tab ++ "5 ") = Some 5.
Proof. vm_compute. repeat split. Qed.

(** C9, through [freq]: the second chunk has a token that is no number; the
    value of the first chunk and the value before the bad token stay. *)
Example freq_streaming_bad_token :
  fst (freq (scripted ["#13+1.5"; "#18+2.5,oops,+3.5"]) false
         "exp:10E6 res:5 ch:1 cou:ac sampl:3" true armed)
  = Raises (Py.ValueError "could not convert string to float")
  /\ meas_out (snd (freq (scripted ["#13+1.5"; "#18+2.5,oops,+3.5"]) false
                      "exp:10E6 res:5 ch:1 cou:ac sampl:3" true armed))
     = [Measure (Py.FFin false 6755399441055744 (-52));
        Measure (Py.FFin false 5629499534213120 (-51))].
Proof. vm_compute. split; reflexivity. Qed.

Example freq_streaming_no_header :
  fst (freq (scripted ["#13+1.5"; "12345"]) false
         "exp:10E6 res:5 ch:1 cou:ac sampl:3" true armed)
  = Raises (Py.IndexError "string index out of range")
  /\ meas_out (snd (freq (scripted ["#13+1.5"; "12345"]) false
                      "exp:10E6 res:5 ch:1 cou:ac sampl:3" true armed))
     = [Measure (Py.FFin false 6755399441055744 (-52))].
Proof. vm_compute. split; reflexivity. Qed.

(** The loop bound of the model is never what ends a call of [freq]. *)
Lemma freq_never_unfinished
    (answer : list event -> string -> string) (logger_has_Error : bool)
    (cfgstr : string) (breakread : bool) (st : state) :
  fst (freq answer logger_has_Error cfgstr breakread st) <> Unfinished.
Proof.
  destruct (savedTrigCfg st) as [trig|] eqn:Hsaved.
  - rewrite (freq_passes_check answer logger_has_Error _ _ _ _ Hsaved).
    unfold freq_configured, bind.
    pose proof (freq_setup_finishes (parseConfig cfgstr) trig
                  (with_freq_rawcfg (Some cfgstr) st)) as Hf.
    destruct (freq_setup (parseConfig cfgstr) trig
                (with_freq_rawcfg (Some cfgstr) st)) as [[samples|e|] st1];
      simpl in Hf; [| discriminate | contradiction].
    destruct (negb breakread || (samples =? 1)).
    + destruct (batch_read_raises answer samples st1) as (e & evs & ->).
      discriminate.
    + unfold stream_read, bind, sleep, emit.
      apply stream_loop_finishes. rewrite Z.sub_0_r. lia.
  - rewrite (freq_fails_check answer logger_has_Error _ _ _ Hsaved).
    discriminate.
Qed.

(** ** A failed configuration stays saved *)

Section Reapplied.

Variable answer : list event -> string -> string.
Variable logger_has_Error : bool.

Lemma format_conf_freq (exp res ch : string) :
  Py.format "CONF:FREQ %s,%s,(@%s)" [Py.VStr exp; Py.VStr res; Py.VStr ch]
  = Py.Ok ("CONF:FREQ " ++ exp ++ "," ++ res ++ ",(@" ++ ch ++ ")").
Proof. format_norm. reflexivity. Qed.

Lemma format_resolution (r : string) :
  Py.format "1e-%s" [Py.VStr r] = Py.Ok ("1e-" ++ r).
Proof. format_norm. reflexivity. Qed.

Lemma format_trig_coun (n : Z) :
  Py.format "TRIG:COUN %d" [Py.VInt n] = Py.Ok ("TRIG:COUN " ++ Py.string_of_Z n).
Proof. format_norm. reflexivity. Qed.

(** With its four parameters resolved, [freq] writes its three
    configuration commands and calls [configureTrigger] on the saved
    string; when that call raises, so does [freq]. *)
Lemma freq_setup_reapplies (d : Dict.dict) (trig exp res ch : string)
    (samples : Z) (st : state) (e : Py.exn) (st' : state) :
  freq_parameters d = Some (exp, res, ch, samples) ->
  configureTrigger trig
    (add_events [Write ("CONF:FREQ " ++ exp ++ "," ++ res ++ ",(@" ++ ch ++ ")");
                 Write "SAMP:COUN 1";
                 Write ("TRIG:COUN " ++ Py.string_of_Z samples)] st)
  = (Raises e, st') ->
  freq_setup d trig st = (Raises e, st').
Proof.
  unfold freq_parameters. intros Hpar Hcfg.
  destruct (Dict.get "exp" d) as [e0|] eqn:He; [|discriminate].
  destruct (Dict.get "res" d) as [r0|] eqn:Hr; [|discriminate].
  destruct (Dict.get "ch" d) as [c0|] eqn:Hc; [|discriminate].
  destruct (Dict.get "sampl" d) as [s0|] eqn:Hs; [|discriminate].
  destruct (if String.eqb s0 "" then Some 1 else Py.parse_int s0)
    as [n|] eqn:Hn; [|discriminate].
  injection Hpar as <- <- <- <-.
  unfold freq_setup.
  unfold bind at 1, getitem at 1; rewrite He; unfold ret at 1.
  unfold bind at 1.
  replace ((if String.eqb e0 "" then ret "DEF" else getitem d "exp") st)
    with (Returns (if String.eqb e0 "" then "DEF" else e0), st)
    by (unfold getitem; rewrite He; destruct (String.eqb e0 ""); reflexivity).
  unfold bind at 1, getitem at 1; rewrite Hr; unfold ret at 1.
  unfold bind at 1.
  replace ((if String.eqb r0 "" then ret "DEF"
            else r <- getitem d "res" ;; lift (Py.format "1e-%s" [Py.VStr r])) st)
    with (Returns (if String.eqb r0 "" then "DEF" else "1e-" ++ r0), st)
    by (destruct (String.eqb r0 ""); [reflexivity|];
        unfold bind, getitem; rewrite Hr; cbv beta iota delta [ret];
        rewrite format_resolution; reflexivity).
  unfold bind at 1, getitem at 1; rewrite Hc; unfold ret at 1.
  rewrite format_conf_freq.
  unfold bind at 1, write at 1, bind at 1, lift at 1, ret at 1, emit at 1.
  unfold bind at 1, write at 1, bind at 1, lift at 1, ret at 1, emit at 1.
  unfold bind at 1, getitem at 1; rewrite Hs; unfold ret at 1.
  unfold bind at 1.
  replace ((if String.eqb s0 "" then ret 1
            else s <- getitem d "sampl" ;; lift (Py.int s))
             (add_events [Write "SAMP:COUN 1"]
                (add_events
                   [Write ("CONF:FREQ " ++ (if String.eqb e0 "" then "DEF" else e0)
                             ++ "," ++ (if String.eqb r0 "" then "DEF" else "1e-" ++ r0)
                             ++ ",(@" ++ c0 ++ ")")] st)))
    with (Returns n,
          add_events [Write "SAMP:COUN 1"]
            (add_events
               [Write ("CONF:FREQ " ++ (if String.eqb e0 "" then "DEF" else e0)
                         ++ "," ++ (if String.eqb r0 "" then "DEF" else "1e-" ++ r0)
                         ++ ",(@" ++ c0 ++ ")")] st)).
  2:{ destruct (String.eqb s0 ""); [injection Hn as <-; reflexivity|].
      unfold bind, getitem, Py.int; rewrite Hs; cbv beta iota delta [ret].
      rewrite Hn. reflexivity. }
  rewrite format_trig_coun.
  unfold bind at 1, write at 1, bind at 1, lift at 1, ret at 1, emit at 1.
  rewrite !add_events_app. cbn [app].
  unfold bind at 1.
  match goal with
  | |- context [configureTrigger trig ?s] =>
      replace (configureTrigger trig s) with (@Raises unit e, st')
        by (symmetry; exact Hcfg)
  end.
  reflexivity.
Qed.

(** C10 (as amended): [configureTrigger] saves its argument before it
    checks any key, so a call that fails leaves the invalid string saved.
    Every later [freq] call then passes the check of line 178 (it goes on
    with lines 183-232), and every such call whose own parameters resolve
    writes its three configuration commands and applies the invalid
    configuration again, failing with the same error after the same
    trigger commands. *)
Theorem failed_configuration_is_reapplied
    (cfgstr : string) (st : state) (e : Py.exn) (st1 : state) :
  configureTrigger cfgstr st = (Raises e, st1) ->
  savedTrigCfg st1 = Some cfgstr
  /\ forall (fcfg : string) (breakread : bool) (st2 : state),
       savedTrigCfg st2 = Some cfgstr ->
       freq answer logger_has_Error fcfg breakread st2
       = freq_configured answer (parseConfig fcfg) breakread cfgstr
           (with_freq_rawcfg (Some fcfg) st2)
       /\ forall exp res ch samples,
            freq_parameters (parseConfig fcfg) = Some (exp, res, ch, samples) ->
            fst (freq answer logger_has_Error fcfg breakread st2) = Raises e
            /\ trace (snd (freq answer logger_has_Error fcfg breakread st2))
               = (trace st2
                  ++ [Write ("CONF:FREQ " ++ exp ++ "," ++ res ++ ",(@" ++ ch ++ ")");
                      Write "SAMP:COUN 1";
                      Write ("TRIG:COUN " ++ Py.string_of_Z samples)]
                  ++ map Write (emitted (verdicts (parseConfig cfgstr))))%list.
Proof.
  intros Hfail. rewrite configureTrigger_spec in Hfail.
  injection Hfail as Hout Hst1.
  split; [now subst st1|].
  intros fcfg breakread st2 Hsaved.
  split; [now apply freq_passes_check|].
  intros exp res ch samples Hpar.
  rewrite (freq_passes_check answer logger_has_Error _ _ _ _ Hsaved).
  unfold freq_configured, bind.
  erewrite (freq_setup_reapplies (parseConfig fcfg) cfgstr exp res ch samples);
    [| exact Hpar | rewrite configureTrigger_spec, Hout; reflexivity].
  split; [reflexivity|].
  simpl. now rewrite <- app_assoc.
Qed.

End Reapplied.

Lemma failed_configuration_is_reapplied_witness :
  savedTrigCfg (with_savedTrigCfg (Some "cnt:0 sou:imm") init)
  = Some "cnt:0 sou:imm"
  /\ forall (fcfg : string) (breakread : bool) (st2 : state),
       savedTrigCfg st2 = Some "cnt:0 sou:imm" ->
       freq (scripted []) false fcfg breakread st2
       = freq_configured (scripted []) (parseConfig fcfg) breakread
           "cnt:0 sou:imm" (with_freq_rawcfg (Some fcfg) st2)
       /\ forall exp res ch samples,
            freq_parameters (parseConfig fcfg) = Some (exp, res, ch, samples) ->
            fst (freq (scripted []) false fcfg breakread st2)
            = Raises (Py.AttributeError "Trigger Count out of limits (0)")
            /\ trace (snd (freq (scripted []) false fcfg breakread st2))
               = (trace st2
                  ++ [Write ("CONF:FREQ " ++ exp ++ "," ++ res ++ ",(@" ++ ch ++ ")");
                      Write "SAMP:COUN 1";
                      Write ("TRIG:COUN " ++ Py.string_of_Z samples)]
                  ++ map Write
                       (emitted (verdicts (parseConfig "cnt:0 sou:imm"))))%list.
Proof.
  apply (failed_configuration_is_reapplied (scripted []) false
           "cnt:0 sou:imm" init
           (Py.AttributeError "Trigger Count out of limits (0)")
           (with_savedTrigCfg (Some "cnt:0 sou:imm") init)).
  reflexivity.
Defined.

(** The state a failed [configureTrigger("cnt:0")] leaves. *)
Example configureTrigger_cnt_0 :
  configureTrigger "cnt:0" init
  = (Raises (Py.AttributeError "Trigger Count out of limits (0)"),
     with_savedTrigCfg (Some "cnt:0") init).
Proof. reflexivity. Qed.

(** After it, a [freq] call with its parameters in order applies "cnt:0"
    again and fails the same way. *)
Example freq_reapplies_invalid :
  freq (scripted []) false "exp:10E6 res:5 ch:1 cou:ac sampl:3" false
    (with_savedTrigCfg (Some "cnt:0") init)
  = (Raises (Py.AttributeError "Trigger Count out of limits (0)"),
     add_events
       [Write "CONF:FREQ 10E6,1e-5,(@1)"; Write "SAMP:COUN 1";
        Write "TRIG:COUN 3"]
       (with_savedTrigCfg (Some "cnt:0")
          (with_freq_rawcfg (Some "exp:10E6 res:5 ch:1 cou:ac sampl:3")
             (with_savedTrigCfg (Some "cnt:0") init)))).
Proof. vm_compute. reflexivity. Qed.

(** C10, counterexample: after the failed [configureTrigger("cnt:0")], a
    [freq] call whose [sampl] is no integer passes the trigger check (it
    writes two commands) and ends at line 188 in the ValueError of [int()],
    before line 191: the invalid configuration is not applied again. *)
Lemma freq_does_not_always_reapply :
  configureTrigger "cnt:0" init
  = (Raises (Py.AttributeError "Trigger Count out of limits (0)"),
     with_savedTrigCfg (Some "cnt:0") init)
  /\ fst (freq (scripted []) false "exp:10E6 res:5 ch:1 cou:ac sampl:many" false
            (with_savedTrigCfg (Some "cnt:0") init))
     = Raises (Py.ValueError "invalid literal for int() with base 10")
  /\ trace (snd (freq (scripted []) false
                    "exp:10E6 res:5 ch:1 cou:ac sampl:many" false
                    (with_savedTrigCfg (Some "cnt:0") init)))
     = [Write "CONF:FREQ 10E6,1e-5,(@1)"; Write "SAMP:COUN 1"].
Proof. vm_compute. repeat split. Qed.

(** * Further properties of the class *)

(** ** Relations kept however a call ends *)

Section Kept.

Variable R : state -> state -> Prop.
Hypothesis R_refl : forall st, R st st.
Hypothesis R_trans : forall a b c, R a b -> R b c -> R a c.

Local Abbreviation keeps := (keeps R).

Lemma keeps_ret {A} (a : A) : keeps (ret a).
Proof. intros st; apply R_refl. Qed.

Lemma keeps_raise {A} (e : Py.exn) : keeps (@raise A e).
Proof. intros st; apply R_refl. Qed.

Lemma keeps_unfinished {A} : keeps (@unfinished A).
Proof. intros st; apply R_refl. Qed.

Lemma keeps_lift {A} (r : Py.result A) : keeps (lift r).
Proof. destruct r; [apply keeps_ret | apply keeps_raise]. Qed.

Lemma keeps_read {A} (f : state -> A) : keeps (read f).
Proof. intros st; apply R_refl. Qed.

Lemma keeps_bind {A B} (m : M A) (k : A -> M B) :
  keeps m -> (forall a, keeps (k a)) -> keeps (bind m k).
Proof.
  intros Hm Hk st. unfold bind. specialize (Hm st).
  destruct (m st) as [[a|e|] st1]; simpl in *; try exact Hm.
  eapply R_trans; [exact Hm | apply Hk].
Qed.

Lemma keeps_for_each {A} (l : list A) (body : A -> M unit) :
  (forall x, keeps (body x)) -> keeps (for_each l body).
Proof.
  intros Hb. induction l as [|x l IH]; simpl.
  - apply keeps_ret.
  - apply keeps_bind; [apply Hb | intros _; exact IH].
Qed.

Lemma keeps_repeat_n (n : nat) (body : M unit) :
  keeps body -> keeps (repeat_n n body).
Proof.
  intros Hb. induction n as [|n IH]; simpl.
  - apply keeps_ret.
  - apply keeps_bind; [exact Hb | intros _; exact IH].
Qed.

Lemma keeps_getitem (d : Dict.dict) (k : string) : keeps (getitem d k).
Proof.
  unfold getitem. destruct (Dict.get k d); [apply keeps_ret | apply keeps_raise].
Qed.

Lemma keeps_logger_log (msg : Py.result string) : keeps (logger_log msg).
Proof.
  unfold logger_log. apply keeps_bind;
    [apply keeps_lift | intros; apply keeps_ret].
Qed.

Lemma keeps_logger_Error b msg : keeps (logger_Error b msg).
Proof.
  unfold logger_Error. destruct b; [apply keeps_logger_log | apply keeps_raise].
Qed.

Lemma keeps_global (name : string) : keeps (global name).
Proof.
  unfold global. destruct (existsb _ _); [apply keeps_ret | apply keeps_raise].
Qed.

Lemma keeps_last (k : string) : keeps (last k).
Proof.
  unfold last. apply keeps_bind; [apply keeps_lift | intros; apply keeps_ret].
Qed.

(** Writing to the device. *)
Hypothesis R_write : forall c st, R st (add_events [Write c] st).

Lemma keeps_write (cmd : Py.result string) : keeps (write cmd).
Proof.
  unfold write. apply keeps_bind; [apply keeps_lift | intros c st; apply R_write].
Qed.

Ltac keeps_pure_step :=
  first
    [ apply keeps_ret | apply keeps_raise | apply keeps_unfinished
    | apply keeps_lift | apply keeps_read | apply keeps_getitem
    | apply keeps_logger_log | apply keeps_logger_Error
    | apply keeps_global | apply keeps_last | apply keeps_write
    | apply keeps_bind; [|intro]
    | apply keeps_for_each; intro
    | apply keeps_repeat_n
    | match goal with
      | |- keeps (if ?b then _ else _) => destruct b
      | |- keeps (match ?x with _ => _ end) => destruct x
      end ].

Lemma keeps_trigLevel (cfgstr : string) : keeps (trigLevel cfgstr).
Proof. unfold trigLevel, trigLevel_channel. repeat keeps_pure_step. Qed.

Lemma keeps_resetDevice : keeps resetDevice.
Proof. unfold resetDevice. repeat keeps_pure_step. Qed.

(** [configureTrigger] keeps a relation that saving its argument keeps. *)
Lemma keeps_configureTrigger (cfgstr : string) :
  (forall st, R st (with_savedTrigCfg (Some cfgstr) st)) ->
  keeps (configureTrigger cfgstr).
Proof.
  intros Hsave.
  unfold configureTrigger, trigger_count, trigger_delay, trigger_source,
    trigger_slope.
  apply keeps_bind; [intros st; apply Hsave | intros _].
  repeat keeps_pure_step.
Qed.

(** Queries, waits, prints, appended measures and the raw strings. *)
Hypothesis R_events : forall ev st, R st (add_events [ev] st).
Hypothesis R_samples : forall s st, R st (add_samples [s] st).
Hypothesis R_freq_rawcfg : forall v st, R st (with_freq_rawcfg v st).
Hypothesis R_period_rawcfg : forall v st, R st (with_period_rawcfg v st).

Lemma keeps_emit (ev : event) : keeps (emit ev).
Proof. intros st; apply R_events. Qed.

Lemma keeps_addMeasures (s : sample) : keeps (addMeasures s).
Proof. intros st; apply R_samples. Qed.

Lemma keeps_query answer (cmd : Py.result string) : keeps (query answer cmd).
Proof.
  unfold query.
  apply keeps_bind; [apply keeps_lift | intros c].
  apply keeps_bind; [apply keeps_read | intros r].
  apply keeps_bind; [apply keeps_emit | intros _; apply keeps_ret].
Qed.

Ltac keeps_step :=
  first
    [ apply keeps_emit | apply keeps_addMeasures | apply keeps_query
    | apply keeps_trigLevel
    | keeps_pure_step ].

Lemma keeps_add_values (toks : list string) (n : Z) : keeps (add_values toks n).
Proof.
  revert n. induction toks as [|m t IH]; intros n; simpl.
  - apply keeps_ret.
  - repeat (first [apply IH | keeps_step]).
Qed.

Lemma keeps_batch_read answer (samples : Z) : keeps (batch_read answer samples).
Proof. unfold batch_read, sleep. repeat keeps_step. Qed.

Lemma keeps_stream_round answer : keeps (stream_round answer).
Proof.
  unfold stream_round, sleep.
  repeat (first [apply keeps_add_values | keeps_step]).
Qed.

Lemma keeps_stream_loop answer (fuel : nat) (samples i : Z) :
  keeps (stream_loop answer fuel samples i).
Proof.
  revert i. induction fuel as [|fuel IH]; intros i; simpl.
  - destruct (i <? samples); [apply keeps_unfinished | apply keeps_ret].
  - destruct (i <? samples); [|apply keeps_ret].
    apply keeps_bind; [apply keeps_stream_round | intros n; apply IH].
Qed.

Lemma keeps_stream_read answer (samples : Z) :
  keeps (stream_read answer samples).
Proof.
  unfold stream_read, sleep.
  apply keeps_bind; [apply keeps_emit | intros _; apply keeps_stream_loop].
Qed.

Lemma keeps_freq_configured answer (d : Dict.dict) (breakread : bool)
    (trig : string) :
  (forall st, R st (with_savedTrigCfg (Some trig) st)) ->
  keeps (freq_configured answer d breakread trig).
Proof.
  intros Hsave. unfold freq_configured, freq_setup.
  repeat (first [ apply (keeps_configureTrigger _ Hsave)
                | apply keeps_batch_read | apply keeps_stream_read
                | keeps_step ]).
Qed.

Lemma keeps_freq answer b (cfgstr : string) (breakread : bool) :
  (forall trig st, R st (with_savedTrigCfg (Some trig) st)) ->
  keeps (freq answer b cfgstr breakread).
Proof.
  intros Hsave. unfold freq.
  apply keeps_bind; [intros st; apply R_freq_rawcfg | intros _].
  repeat (first [ apply keeps_freq_configured; apply Hsave | keeps_step ]).
Qed.

Lemma keeps_period answer (cfgstr : string) : keeps (period answer cfgstr).
Proof.
  unfold period, period_channel, sleep, print.
  apply keeps_bind; [intros st; apply R_period_rawcfg | intros _].
  repeat keeps_step.
Qed.

Lemma keeps_timeInterval answer strftime_now (cfgstr : string) :
  keeps (timeInterval answer strftime_now cfgstr).
Proof.
  unfold timeInterval, timeInterval_body, timeInterval_read, wants_tstamp.
  repeat (first [ keeps_step
                | match goal with
                  | |- keeps (let (_, _) := ?x in _) => destruct x
                  end ]).
Qed.

End Kept.

(** ** What the methods leave alone *)

Lemma only_writes_refl (st : state) : only_writes st st.
Proof. exists []. simpl. now rewrite app_nil_r. Qed.

Lemma only_writes_trans (a b c : state) :
  only_writes a b -> only_writes b c -> only_writes a c.
Proof.
  intros [x Hx] [y Hy]. exists (x ++ y)%list.
  now rewrite Hy, Hx, map_app, app_assoc.
Qed.

(** X1: no method assigns the saved trigger level.  [__init__] sets it to
    None and every method leaves it as it finds it, so line 192 of [freq]
    applies a trigger level only if the attribute was set from outside. *)
Theorem savedTrigLev_never_assigned
    (answer : list event -> string -> string)
    (strftime_now : list event -> string) (logger_has_Error : bool)
    (cfgstr : string) (breakread : bool) (st : state) :
  savedTrigLev (snd (configureTrigger cfgstr st)) = savedTrigLev st
  /\ savedTrigLev (snd (trigLevel cfgstr st)) = savedTrigLev st
  /\ savedTrigLev (snd (freq answer logger_has_Error cfgstr breakread st))
     = savedTrigLev st
  /\ savedTrigLev (snd (period answer cfgstr st)) = savedTrigLev st
  /\ savedTrigLev (snd (timeInterval answer strftime_now cfgstr st))
     = savedTrigLev st
  /\ savedTrigLev (snd (resetDevice st)) = savedTrigLev st.
Proof.
  assert (Ht : forall a b c, same_level a b -> same_level b c -> same_level a c)
    by (unfold same_level; intros; congruence).
  split; [|split; [|split; [|split; [|split]]]].
  - apply (keeps_configureTrigger same_level); unfold same_level; auto.
  - apply (keeps_trigLevel same_level); unfold same_level; auto.
  - apply (keeps_freq same_level); unfold same_level; auto.
  - apply (keeps_period same_level); unfold same_level; auto.
  - apply (keeps_timeInterval same_level); unfold same_level; auto.
  - apply (keeps_resetDevice same_level); unfold same_level; auto.
Qed.

Lemma stays_configured_trans (trig : string) (a b c : state) :
  stays_configured trig a b -> stays_configured trig b c ->
  stays_configured trig a c.
Proof. unfold stays_configured; auto. Qed.

(** X2: only [configureTrigger] changes the saved trigger configuration.
    [freq], which calls it on the saved string, saves that same string
    again; [trigLevel], [period], [timeInterval] and [resetDevice] do not
    touch it.  A reset of the device therefore leaves the engine armed. *)
Theorem savedTrigCfg_only_set_by_configureTrigger
    (answer : list event -> string -> string)
    (strftime_now : list event -> string) (logger_has_Error : bool)
    (cfgstr : string) (breakread : bool) (st : state) :
  savedTrigCfg (snd (freq answer logger_has_Error cfgstr breakread st))
  = savedTrigCfg st
  /\ savedTrigCfg (snd (trigLevel cfgstr st)) = savedTrigCfg st
  /\ savedTrigCfg (snd (period answer cfgstr st)) = savedTrigCfg st
  /\ savedTrigCfg (snd (timeInterval answer strftime_now cfgstr st))
     = savedTrigCfg st
  /\ savedTrigCfg (snd (resetDevice st)) = savedTrigCfg st.
Proof.
  set (same := fun a b : state => savedTrigCfg b = savedTrigCfg a).
  assert (Ht : forall a b c, same a b -> same b c -> same a c)
    by (unfold same; intros; congruence).
  split; [|split; [|split; [|split]]].
  - destruct (savedTrigCfg st) as [trig|] eqn:Hsaved.
    + rewrite (freq_passes_check answer logger_has_Error _ _ _ _ Hsaved).
      apply (keeps_freq_configured (stays_configured trig));
        unfold stays_configured; auto.
    + now rewrite (freq_fails_check answer logger_has_Error _ _ _ Hsaved).
  - apply (keeps_trigLevel same); unfold same; auto.
  - apply (keeps_period same); unfold same; auto.
  - apply (keeps_timeInterval same); unfold same; auto.
  - apply (keeps_resetDevice same); unfold same; auto.
Qed.

(** X3: [configureTrigger], [trigLevel] and [resetDevice] only write to
    the device: whatever their argument and however they end, what they add
    to the traffic is a list of written commands, with no query, no wait
    and no print, and they append nothing to a result container. *)
Theorem trigger_methods_only_write (cfgstr : string) (st : state) :
  (only_writes st (snd (configureTrigger cfgstr st))
   /\ meas_out (snd (configureTrigger cfgstr st)) = meas_out st)
  /\ (only_writes st (snd (trigLevel cfgstr st))
      /\ meas_out (snd (trigLevel cfgstr st)) = meas_out st)
  /\ (only_writes st (snd (resetDevice st))
      /\ meas_out (snd (resetDevice st)) = meas_out st).
Proof.
  assert (Hw : forall c s, only_writes s (add_events [Write c] s))
    by (intros c s; exists [c]; reflexivity).
  split; [split|split; split].
  - apply (keeps_configureTrigger only_writes only_writes_refl
             only_writes_trans Hw).
    intros s. exists []. simpl. now rewrite app_nil_r.
  - apply (keeps_configureTrigger same_sink); unfold same_sink; auto;
      intros; congruence.
  - apply (keeps_trigLevel only_writes only_writes_refl only_writes_trans Hw).
  - apply (keeps_trigLevel same_sink); unfold same_sink; auto;
      intros; congruence.
  - apply (keeps_resetDevice only_writes only_writes_refl only_writes_trans Hw).
  - apply (keeps_resetDevice same_sink); unfold same_sink; auto;
      intros; congruence.
Qed.

(** ** configureTrigger: what is accepted *)

Lemma accepted_all (vs : list verdict) :
  Forall accepted vs -> rejection vs = None /\ emitted vs = commands vs.
Proof.
  induction 1 as [|v vs Hv _ [IH1 IH2]]; [split; reflexivity|].
  destruct v; simpl in *; [auto | now rewrite IH2 | contradiction].
Qed.

(** X4: when none of the four keys is rejected, [configureTrigger] returns,
    and it has written one command for each key present, in the order
    count, delay, source, slope, whatever the order of the keys in the
    string. *)
Theorem configureTrigger_accepts (cfgstr : string) (st : state) :
  Forall accepted (verdicts (parseConfig cfgstr)) ->
  configureTrigger cfgstr st
  = (Returns tt,
     add_events (map Write (commands (verdicts (parseConfig cfgstr))))
       (with_savedTrigCfg (Some cfgstr) st)).
Proof.
  intros Hall. rewrite configureTrigger_spec. unfold outcome_of.
  destruct (accepted_all _ Hall) as [-> ->]. reflexivity.
Qed.

Lemma configureTrigger_accepts_witness :
  configureTrigger "slo:neg sou:ext del:10 cnt:5" init
  = (Returns tt,
     add_events
       (map Write
          (commands (verdicts (parseConfig "slo:neg sou:ext del:10 cnt:5"))))
       (with_savedTrigCfg (Some "slo:neg sou:ext del:10 cnt:5") init)).
Proof.
  apply (configureTrigger_accepts "slo:neg sou:ext del:10 cnt:5" init).
  vm_compute. repeat constructor.
Defined.

Example configureTrigger_order :
  commands (verdicts (parseConfig "slo:neg sou:ext del:10 cnt:5"))
  = ["TRIGGer:COUNt 5"; "TRIGGer:DELay 10.000000"; "TRIGGer:SOURce ext";
     "TRIGGer:SLOPe neg"].
Proof. vm_compute. reflexivity. Qed.

(** X5: a count that is no integer literal is not reported as out of
    limits: [int()] raises ValueError, before any command. *)
Theorem configureTrigger_cnt_not_integer
    (cfgstr v : string) (st : state) :
  Dict.get "cnt" (parseConfig cfgstr) = Some v ->
  Py.parse_int v = None ->
  configureTrigger cfgstr st
  = (Raises (Py.ValueError "invalid literal for int() with base 10"),
     with_savedTrigCfg (Some cfgstr) st).
Proof.
  intros Hget Hint.
  rewrite configureTrigger_spec. unfold outcome_of, verdicts, check_cnt.
  rewrite Hget, Hint. simpl. now rewrite add_events_nil.
Qed.

Lemma configureTrigger_cnt_not_integer_witness :
  configureTrigger "cnt:1e3 sou:imm" init
  = (Raises (Py.ValueError "invalid literal for int() with base 10"),
     with_savedTrigCfg (Some "cnt:1e3 sou:imm") init).
Proof.
  apply (configureTrigger_cnt_not_integer "cnt:1e3 sou:imm" "1e3" init);
    reflexivity.
Defined.

(** X6: a string with none of the four keys (the empty string, or keys
    misspelt) is accepted: nothing is sent, and the string is saved all the
    same, so that the trigger check of [freq] passes afterwards. *)
Theorem configureTrigger_without_keys
    (answer : list event -> string -> string) (logger_has_Error : bool)
    (cfgstr : string) (st : state) :
  Dict.get "cnt" (parseConfig cfgstr) = None ->
  Dict.get "del" (parseConfig cfgstr) = None ->
  Dict.get "sou" (parseConfig cfgstr) = None ->
  Dict.get "slo" (parseConfig cfgstr) = None ->
  configureTrigger cfgstr st = (Returns tt, with_savedTrigCfg (Some cfgstr) st)
  /\ forall fcfg breakread,
       freq answer logger_has_Error fcfg breakread
         (with_savedTrigCfg (Some cfgstr) st)
       = freq_configured answer (parseConfig fcfg) breakread cfgstr
           (with_freq_rawcfg (Some fcfg) (with_savedTrigCfg (Some cfgstr) st)).
Proof.
  intros H1 H2 H3 H4. split.
  - rewrite configureTrigger_spec.
    unfold outcome_of, verdicts, check_cnt, check_del, check_sou, check_slo.
    rewrite H1, H2, H3, H4. simpl. now rewrite add_events_nil.
  - intros fcfg breakread. now apply freq_passes_check.
Qed.

Lemma configureTrigger_without_keys_witness :
  configureTrigger "" init = (Returns tt, with_savedTrigCfg (Some "") init)
  /\ forall fcfg breakread,
       freq (scripted []) false fcfg breakread
         (with_savedTrigCfg (Some "") init)
       = freq_configured (scripted []) (parseConfig fcfg) breakread ""
           (with_freq_rawcfg (Some fcfg) (with_savedTrigCfg (Some "") init)).
Proof.
  apply (configureTrigger_without_keys (scripted []) false "" init);
    reflexivity.
Defined.

(** ** trigLevel, channel by channel *)

(** What [re.findall] returns are the literal and one digit. *)
Lemma findall_aux_shape (lit : list ascii) (s : list ascii) :
  forall (skip : nat) (k : string),
    In k (Py.findall_aux lit skip s) ->
    exists d, Py.is_digit d = true /\ k = Py.str (lit ++ [d]).
Proof.
  induction s as [|c t IH]; intros skip k Hin; [contradiction|].
  cbn [Py.findall_aux] in Hin.
  destruct skip as [|skip]; [|now apply IH in Hin].
  destruct (Py.is_prefix lit (c :: t)); [|now apply IH in Hin].
  destruct (nth_error (c :: t) (List.length lit)) as [d|];
    [|now apply IH in Hin].
  destruct (Py.is_digit d) eqn:Hd; [|now apply IH in Hin].
  destruct Hin as [<-|Hin]; [now exists d | now apply IH in Hin].
Qed.

Lemma trig_keys_shape (s k : string) :
  In k (Py.findall_lit_digit "trig" s) ->
  exists c, Py.is_digit c = true /\ k = trig_key c.
Proof.
  intros Hin. apply findall_aux_shape in Hin.
  destruct Hin as (d & Hd & ->). now exists d.
Qed.

(** A digit is read by [int()] and printed by [%d] as itself. *)
Lemma digit_round_trip (c : ascii) :
  Py.is_digit c = true ->
  Py.int (String c "") = Py.Ok (Py.digit_val c)
  /\ Py.string_of_Z (Py.digit_val c) = String c "".
Proof.
  destruct c as [b0 b1 b2 b3 b4 b5 b6 b7].
  destruct b0, b1, b2, b3, b4, b5, b6, b7; intros H;
    try discriminate H; split; reflexivity.
Qed.

Lemma last_trig_key (c : ascii) (st : state) :
  last (trig_key c) st = (Returns (String c ""), st).
Proof. reflexivity. Qed.

Lemma format_auto_raises (ch percent : string) :
  Py.format "Mode auto for channel %s at %s\%" [Py.VStr ch; Py.VStr percent]
  = Py.Raise (Py.ValueError "incomplete format").
Proof.
  unfold Py.format. cbn -[Py.string_of_Z Py.format_f Py.float_of_int].
  reflexivity.
Qed.

(** X8: for any channel, a value that starts with [a] (the auto mode of
    the docstring) ends the call at line 141, in the ValueError of a format
    that ends in a lone [%]; nothing is written for that channel or for the
    channels after it. *)
Theorem trigLevel_channel_auto
    (d : Dict.dict) (c : ascii) (v : string) (st : state) :
  Dict.get (trig_key c) d = Some v ->
  Py.first_char v = Py.Ok "a"%char ->
  trigLevel_channel d (trig_key c) st
  = (Raises (Py.ValueError "incomplete format"), st).
Proof.
  intros Hget Hfirst. unfold trigLevel_channel.
  unfold bind at 1, getitem at 1; rewrite Hget; unfold ret at 1.
  unfold bind at 1; rewrite Hfirst; unfold lift at 1, ret at 1.
  unfold bind at 1.
  cbn [Ascii.eqb Bool.eqb].
  unfold bind at 1; rewrite last_trig_key.
  unfold logger_log. rewrite format_auto_raises. reflexivity.
Qed.

Lemma trigLevel_channel_auto_witness :
  trigLevel_channel (parseConfig "trig2:a75") (trig_key "2") init
  = (Raises (Py.ValueError "incomplete format"), init).
Proof.
  apply (trigLevel_channel_auto (parseConfig "trig2:a75") "2" "a75" init);
    reflexivity.
Defined.

Lemma append_not_empty (a b : string) : b <> "" -> a ++ b <> "".
Proof. destruct a; simpl; [auto | discriminate]. Qed.

Lemma format_f_3_not_empty (f : Py.float) : Py.format_f 3 f <> "".
Proof.
  destruct f as [neg m e|neg|]; [| destruct neg; discriminate | discriminate].
  unfold Py.format_f. cbv beta iota zeta.
  apply append_not_empty, append_not_empty. discriminate.
Qed.

Lemma padded_1 (s : string) : s <> "" -> Py.padded 1 s = s.
Proof.
  destruct s as [|a t]; [contradiction|]. intros _.
  unfold Py.padded, Py.pad_left, Py.chars. simpl.
  now rewrite string_of_list_ascii_of_string.
Qed.

Lemma padded_0 (s : string) : Py.padded 0 s = s.
Proof.
  unfold Py.padded, Py.pad_left, Py.chars. simpl.
  now rewrite string_of_list_ascii_of_string.
Qed.

Lemma format_auto_off (n : Z) :
  Py.format "INPUT%d:LEVEL:AUTO OFF" [Py.VInt n]
  = Py.Ok ("INPUT" ++ Py.string_of_Z n ++ ":LEVEL:AUTO OFF").
Proof. format_norm. reflexivity. Qed.

Lemma format_level (n : Z) (f : Py.float) :
  Py.format "INPUT%d:LEVEL %1.3f" [Py.VInt n; Py.VFloat f]
  = Py.Ok ("INPUT" ++ Py.string_of_Z n ++ ":LEVEL " ++ Py.format_f 3 f).
Proof.
  unfold Py.format.
  cbn -[Py.string_of_Z Py.format_f Py.float_of_int Py.padded].
  change (Pos.to_nat 1) with 1%nat. change (Pos.to_nat 3) with 3%nat.
  rewrite padded_0, (padded_1 _ (format_f_3_not_empty f)), append_nil_r.
  reflexivity.
Qed.

Lemma format_manual_log (ch : string) (f : Py.float) :
  exists s, Py.format "Mode manual for channel %s at %fV"
              [Py.VStr ch; Py.VFloat f] = Py.Ok s.
Proof.
  unfold Py.format.
  cbn -[Py.string_of_Z Py.format_f Py.float_of_int Py.padded].
  eexists; reflexivity.
Qed.

Lemma format_setting_log (n : Z) (f : Py.float) :
  exists s, Py.format "Setting Trigger Level in channel %d to %1.3f"
              [Py.VInt n; Py.VFloat f] = Py.Ok s.
Proof.
  unfold Py.format.
  cbn -[Py.string_of_Z Py.format_f Py.float_of_int Py.padded].
  eexists; reflexivity.
Qed.

(** X9: for a channel in manual mode (its value is a float literal that
    does not start with [a]) the body of the loop writes two commands: the
    automatic level off, then the level with three decimals. *)
Theorem trigLevel_channel_manual
    (d : Dict.dict) (c : ascii) (v : string) (volts : Py.float) (st : state) :
  Py.is_digit c = true ->
  Dict.get (trig_key c) d = Some v ->
  Py.parse_float v = Some volts ->
  (forall t, v <> String "a" t) ->
  trigLevel_channel d (trig_key c) st
  = (Returns tt, add_events (level_commands c volts) st).
Proof.
  intros Hc Hget Hfloat Hmanual.
  destruct (digit_round_trip c Hc) as [Hint Hprint].
  destruct v as [|c0 t]; [discriminate Hfloat|].
  assert (Hc0 : Ascii.eqb c0 "a" = false).
  { destruct (Ascii.eqb c0 "a") eqn:E; [|reflexivity].
    apply Ascii.eqb_eq in E. subst c0. now destruct (Hmanual t). }
  destruct (format_manual_log (String c "") volts) as [s1 Hs1].
  destruct (format_setting_log (Py.digit_val c) volts) as [s2 Hs2].
  unfold trigLevel_channel, level_commands.
  unfold bind at 1, getitem at 1; rewrite Hget; unfold ret at 1.
  unfold bind at 1.
  change (Py.first_char (String c0 t)) with (Py.Ok c0).
  unfold lift at 1, ret at 1.
  unfold bind at 1. rewrite Hc0.
  unfold bind at 1, Py.float_ at 1; rewrite Hfloat; unfold lift at 1, ret at 1.
  unfold bind at 1; rewrite last_trig_key.
  unfold logger_log at 1; rewrite Hs1.
  unfold bind at 1, lift at 1, ret at 1, ret at 1.
  unfold bind at 1; rewrite last_trig_key.
  unfold bind at 1; rewrite Hint; unfold lift at 1, ret at 1.
  rewrite format_auto_off, Hprint.
  unfold bind at 1, write at 1, bind at 1, lift at 1, ret at 1, emit at 1.
  unfold bind at 1; rewrite last_trig_key.
  unfold bind at 1; rewrite Hint; unfold lift at 1, ret at 1.
  unfold bind at 1, getitem at 1; rewrite Hget; unfold ret at 1.
  unfold bind at 1, Py.float_ at 1; rewrite Hfloat; unfold lift at 1, ret at 1.
  rewrite format_level, Hprint.
  unfold bind at 1, write at 1, bind at 1, lift at 1, ret at 1, emit at 1.
  unfold bind at 1; rewrite last_trig_key.
  unfold bind at 1; rewrite Hint; unfold lift at 1, ret at 1.
  unfold bind at 1, getitem at 1; rewrite Hget; unfold ret at 1.
  unfold bind at 1, Py.float_ at 1; rewrite Hfloat; unfold lift at 1, ret at 1.
  unfold logger_log; rewrite Hs2.
  unfold bind, lift, ret. rewrite add_events_app. reflexivity.
Qed.

Lemma trigLevel_channel_manual_witness :
  trigLevel_channel (parseConfig "trig1:-0.25") (trig_key "1") init
  = (Returns tt,
     add_events
       (level_commands "1"
          (Py.FFin true 4503599627370496 (-54))) init).
Proof.
  apply (trigLevel_channel_manual (parseConfig "trig1:-0.25") "1" "-0.25");
    try reflexivity.
  intros t. discriminate.
Defined.

Example level_commands_negative :
  level_commands "1" (Py.FFin true 4503599627370496 (-54))
  = [Write "INPUT1:LEVEL:AUTO OFF"; Write "INPUT1:LEVEL -0.250"].
Proof. vm_compute. reflexivity. Qed.

(** ** period never completes *)

Section Period.

Variable answer : list event -> string -> string.

Lemma ch_keys_shape (s k : string) :
  In k (Py.findall_lit_digit "ch" s) ->
  exists c, Py.is_digit c = true /\ k = ch_key c.
Proof.
  intros Hin. apply findall_aux_shape in Hin.
  destruct Hin as (d & Hd & ->). now exists d.
Qed.

Lemma last_ch_key (c : ascii) (st : state) :
  last (ch_key c) st = (Returns (String c ""), st).
Proof. reflexivity. Qed.

Lemma format_conf_per (n : Z) :
  Py.format "CONF:PER DEF,DEF,(@%d)" [Py.VInt n]
  = Py.Ok ("CONF:PER DEF,DEF,(@" ++ Py.string_of_Z n ++ ")").
Proof. format_norm. reflexivity. Qed.

Lemma format_coupling_dc (n : Z) :
  Py.format "INPUT%d:COUPLING DC" [Py.VInt n]
  = Py.Ok ("INPUT" ++ Py.string_of_Z n ++ ":COUPLING DC").
Proof. format_norm. reflexivity. Qed.

Lemma trigLevel_ends (cfgstr : string) (st : state) :
  fst (trigLevel cfgstr st) <> Unfinished.
Proof.
  apply (preserves_trigLevel anything); unfold anything; auto.
Qed.

(** One channel of [period]: the configuration is written and [trigLevel]
    called; what [trigLevel] raises ends the channel, and when it returns
    the reading is taken and printed, and then line 259 raises NameError. *)
Lemma period_channel_spec (cfgstr : string) (c : ascii) (st : state) :
  Py.is_digit c = true ->
  period_channel answer cfgstr (ch_key c) st
  = match trigLevel cfgstr
            (add_events [Write ("CONF:PER DEF,DEF,(@" ++ String c ")")] st) with
    | (Returns _, st2) =>
        (Raises (Py.NameError "logging"),
         add_events
           (period_reading c
              (answer (trace st2
                       ++ [Write ("INPUT" ++ String c ":COUPLING DC");
                           Write "INIT"; Sleep 3])%list "READ?"))
           st2)
    | (Raises e, st2) => (Raises e, st2)
    | (Unfinished, st2) => (Unfinished, st2)
    end.
Proof.
  intros Hc. destruct (digit_round_trip c Hc) as [Hint Hprint].
  unfold period_channel.
  unfold bind at 1; rewrite last_ch_key.
  unfold bind at 1; rewrite Hint; unfold lift at 1, ret at 1.
  rewrite format_conf_per, Hprint.
  unfold bind at 1, write at 1, bind at 1, lift at 1, ret at 1, emit at 1.
  unfold bind at 1.
  change (String c "" ++ ")") with (String c ")").
  destruct (trigLevel cfgstr
              (add_events [Write ("CONF:PER DEF,DEF,(@" ++ String c ")")] st))
    as [[[]|e|] st2]; [|reflexivity|reflexivity].
  unfold bind at 1; rewrite last_ch_key.
  unfold bind at 1; rewrite Hint; unfold lift at 1, ret at 1.
  rewrite format_coupling_dc, Hprint.
  unfold bind at 1, write at 1, bind at 1, lift at 1, ret at 1, emit at 1.
  unfold bind at 1, write at 1, bind at 1, lift at 1, ret at 1, emit at 1.
  unfold bind at 1, sleep at 1, emit at 1.
  unfold bind at 1; rewrite query_ok.
  unfold bind at 1, print at 1, emit at 1.
  unfold bind at 1, global at 1.
  replace (existsb (String.eqb "logging") module_globals) with false
    by reflexivity.
  unfold raise, period_reading.
  rewrite !add_events_app. reflexivity.
Qed.

(** X7: [period] never completes, and this is how it ends.  Without a
    [ch<digit>] key line 250 raises Exception, the raw configuration being
    saved and nothing written.  With such keys, only the first channel is
    served: its configuration is written and [trigLevel] called on the
    whole string; if [trigLevel] raises, its exception ends the call, and
    if it returns, the coupling and [INIT] are written, three seconds
    waited, the reading queried and printed, and line 259 raises NameError
    ([logging] is not imported).  No second channel is reached. *)
Theorem period_always_raises (cfgstr : string) (st : state) :
  (exists e, fst (period answer cfgstr st) = Raises e)
  /\ match Py.findall_lit_digit "ch"
             (Py.join " " (Dict.keys (parseConfig cfgstr))) with
     | [] =>
         period answer cfgstr st
         = (Raises (Py.Exception "No valid params passed to period"),
            with_period_rawcfg (Some cfgstr) st)
     | k :: _ =>
         exists c,
           Py.is_digit c = true /\ k = ch_key c
           /\ period answer cfgstr st
              = match trigLevel cfgstr
                        (add_events
                           [Write ("CONF:PER DEF,DEF,(@" ++ String c ")")]
                           (with_period_rawcfg (Some cfgstr) st)) with
                | (Returns _, st2) =>
                    (Raises (Py.NameError "logging"),
                     add_events
                       (period_reading c
                          (answer
                             (trace st2
                              ++ [Write ("INPUT" ++ String c ":COUPLING DC");
                                  Write "INIT"; Sleep 3])%list "READ?"))
                       st2)
                | (Raises e, st2) => (Raises e, st2)
                | (Unfinished, st2) => (Unfinished, st2)
                end
     end.
Proof.
  assert (Hrun : period answer cfgstr st
                 = match Py.findall_lit_digit "ch"
                           (Py.join " " (Dict.keys (parseConfig cfgstr))) with
                   | [] => (Raises (Py.Exception
                                      "No valid params passed to period"),
                            with_period_rawcfg (Some cfgstr) st)
                   | k :: rest =>
                       for_each (k :: rest) (period_channel answer cfgstr)
                         (with_period_rawcfg (Some cfgstr) st)
                   end).
  { unfold period.
    unfold bind at 1, set_period_rawcfg.
    unfold bind at 1; rewrite log_config_parsed.
    destruct (Py.findall_lit_digit "ch"
                (Py.join " " (Dict.keys (parseConfig cfgstr))));
      reflexivity. }
  pose proof (ch_keys_shape (Py.join " " (Dict.keys (parseConfig cfgstr))))
    as Hshape.
  destruct (Py.findall_lit_digit "ch"
              (Py.join " " (Dict.keys (parseConfig cfgstr)))) as [|k rest].
  - split; [rewrite Hrun; eexists; reflexivity | exact Hrun].
  - destruct (Hshape k (or_introl eq_refl)) as (c & Hc & ->).
    assert (Hk : period answer cfgstr st
                 = period_channel answer cfgstr (ch_key c)
                     (with_period_rawcfg (Some cfgstr) st)).
    { rewrite Hrun. cbn [for_each]. unfold bind.
      rewrite (period_channel_spec cfgstr c _ Hc).
      destruct (trigLevel cfgstr _) as [[[]|e|] st2]; reflexivity. }
    split.
    + rewrite Hk, (period_channel_spec cfgstr c _ Hc).
      pose proof (trigLevel_ends cfgstr
                    (add_events [Write ("CONF:PER DEF,DEF,(@" ++ String c ")")]
                       (with_period_rawcfg (Some cfgstr) st))) as Hends.
      destruct (trigLevel cfgstr
                  (add_events [Write ("CONF:PER DEF,DEF,(@" ++ String c ")")]
                     (with_period_rawcfg (Some cfgstr) st)))
        as [[[]|e|] st2]; simpl in Hends;
        [eexists; reflexivity | eexists; reflexivity | contradiction].
    + exists c. split; [exact Hc|]. split; [reflexivity|].
      rewrite Hk. apply (period_channel_spec cfgstr c _ Hc).
Qed.

End Period.

(** [period] with a channel and no trigger level in the string: the
    channel is configured, and [trigLevel] ends the call. *)
Example period_without_trig_key :
  period (scripted ["+1.0E-8"]) "ch1:1" init
  = (Raises (Py.AttributeError "No valid params passed to trigLevel"),
     add_events [Write "CONF:PER DEF,DEF,(@1)"]
       (with_period_rawcfg (Some "ch1:1") init)).
Proof. vm_compute. reflexivity. Qed.

(** Two channels are asked for; the second is never configured. *)
Example period_second_channel_not_reached :
  period (scripted ["+1.0E-8"; "+2.0E-8"]) "ch1:1 ch2:2 trig1:1.5" init
  = (Raises (Py.NameError "logging"),
     add_events
       [Write "CONF:PER DEF,DEF,(@1)"; Write "INPUT1:LEVEL:AUTO OFF";
        Write "INPUT1:LEVEL 1.500"; Write "INPUT1:COUPLING DC"; Write "INIT";
        Sleep 3; Query "READ?"; Print "+1.0E-8"]
       (with_period_rawcfg (Some "ch1:1 ch2:2 trig1:1.5") init)).
Proof. vm_compute. reflexivity. Qed.

(** ** freq: the commands that set the measurement up *)

(** With its four parameters resolved, [freq_setup] writes the three
    configuration commands, applies the saved trigger configuration and
    goes on with lines 192-198. *)
Lemma freq_setup_steps (d : Dict.dict) (trig exp res ch : string)
    (samples : Z) (st : state) :
  freq_parameters d = Some (exp, res, ch, samples) ->
  freq_setup d trig st
  = (configureTrigger trig ;; freq_setup_tail d exp samples)
      (add_events
         [Write ("CONF:FREQ " ++ exp ++ "," ++ res ++ ",(@" ++ ch ++ ")");
          Write "SAMP:COUN 1";
          Write ("TRIG:COUN " ++ Py.string_of_Z samples)] st).
Proof.
  unfold freq_parameters. intros Hpar.
  destruct (Dict.get "exp" d) as [e0|] eqn:He; [|discriminate].
  destruct (Dict.get "res" d) as [r0|] eqn:Hr; [|discriminate].
  destruct (Dict.get "ch" d) as [c0|] eqn:Hc; [|discriminate].
  destruct (Dict.get "sampl" d) as [s0|] eqn:Hs; [|discriminate].
  destruct (if String.eqb s0 "" then Some 1 else Py.parse_int s0)
    as [n|] eqn:Hn; [|discriminate].
  injection Hpar as <- <- <- <-.
  unfold freq_setup.
  unfold bind at 1, getitem at 1; rewrite He; unfold ret at 1.
  unfold bind at 1.
  replace ((if String.eqb e0 "" then ret "DEF" else getitem d "exp") st)
    with (Returns (if String.eqb e0 "" then "DEF" else e0), st)
    by (unfold getitem; rewrite He; destruct (String.eqb e0 ""); reflexivity).
  unfold bind at 1, getitem at 1; rewrite Hr; unfold ret at 1.
  unfold bind at 1.
  replace ((if String.eqb r0 "" then ret "DEF"
            else r <- getitem d "res" ;; lift (Py.format "1e-%s" [Py.VStr r])) st)
    with (Returns (if String.eqb r0 "" then "DEF" else "1e-" ++ r0), st)
    by (destruct (String.eqb r0 ""); [reflexivity|];
        unfold bind, getitem; rewrite Hr; cbv beta iota delta [ret];
        rewrite format_resolution; reflexivity).
  unfold bind at 1, getitem at 1; rewrite Hc; unfold ret at 1.
  rewrite format_conf_freq.
  unfold bind at 1, write at 1, bind at 1, lift at 1, ret at 1, emit at 1.
  unfold bind at 1, write at 1, bind at 1, lift at 1, ret at 1, emit at 1.
  unfold bind at 1, getitem at 1; rewrite Hs; unfold ret at 1.
  unfold bind at 1.
  match goal with
  | |- context [(if String.eqb s0 "" then ret 1 else ?m) ?s] =>
      replace ((if String.eqb s0 "" then ret 1 else m) s) with (Returns n, s)
  end.
  2:{ destruct (String.eqb s0 ""); [injection Hn as <-; reflexivity|].
      unfold bind, getitem, Py.int; rewrite Hs; cbv beta iota delta [ret].
      rewrite Hn. reflexivity. }
  rewrite format_trig_coun.
  unfold bind at 1, write at 1, bind at 1, lift at 1, ret at 1, emit at 1.
  rewrite !add_events_app. reflexivity.
Qed.

Lemma freq_parameters_ch (d : Dict.dict) (exp res ch : string) (samples : Z) :
  freq_parameters d = Some (exp, res, ch, samples) ->
  Dict.get "ch" d = Some ch.
Proof.
  unfold freq_parameters.
  destruct (Dict.get "exp" d); [|discriminate].
  destruct (Dict.get "res" d); [|discriminate].
  destruct (Dict.get "ch" d); [|discriminate].
  destruct (Dict.get "sampl" d); [|discriminate].
  destruct (if String.eqb _ "" then Some 1 else _); [|discriminate].
  intros H. injection H as _ _ -> _. reflexivity.
Qed.

Lemma format_coupling (ch cou : string) :
  Py.format "INPUT%s:COUPLING %s" [Py.VStr ch; Py.VStr cou]
  = Py.Ok ("INPUT" ++ ch ++ ":COUPLING " ++ cou).
Proof. format_norm. reflexivity. Qed.

Lemma format_taking (n : Z) (exp : string) :
  exists s, Py.format "Taking %d samples of expected freq. at %s Hz"
              [Py.VInt n; Py.VStr exp] = Py.Ok s.
Proof.
  unfold Py.format. cbn -[Py.string_of_Z Py.format_f Py.float_of_int].
  eexists; reflexivity.
Qed.

(** X10: with its parameters resolved, a coupling given, a saved trigger
    configuration that is accepted and no saved trigger level, [freq] sets
    the measurement up with these commands, in this order: the frequency
    configuration, one sample per trigger, the trigger count, the saved
    trigger configuration again, the coupling, the gate time and INIT. *)
Theorem freq_setup_commands
    (d : Dict.dict) (trig exp res ch cou : string) (samples : Z) (st : state) :
  freq_parameters d = Some (exp, res, ch, samples) ->
  Dict.get "cou" d = Some cou ->
  savedTrigLev st = None ->
  Forall accepted (verdicts (parseConfig trig)) ->
  fst (freq_setup d trig st) = Returns samples
  /\ trace (snd (freq_setup d trig st))
     = (trace st
        ++ [Write ("CONF:FREQ " ++ exp ++ "," ++ res ++ ",(@" ++ ch ++ ")");
            Write "SAMP:COUN 1";
            Write ("TRIG:COUN " ++ Py.string_of_Z samples)]
        ++ map Write (commands (verdicts (parseConfig trig)))
        ++ [Write ("INPUT" ++ ch ++ ":COUPLING " ++ cou);
            Write "SENS:FREQ:GATE:TIME .1"; Write "INIT"])%list.
Proof.
  intros Hpar Hcou Hlev Hacc.
  pose proof (freq_parameters_ch _ _ _ _ _ Hpar) as Hch.
  destruct (format_taking samples exp) as [s Hs].
  assert (H : freq_setup d trig st
              = (Returns samples,
                 add_events
                   [Write ("INPUT" ++ ch ++ ":COUPLING " ++ cou);
                    Write "SENS:FREQ:GATE:TIME .1"; Write "INIT"]
                   (add_events
                      (map Write (commands (verdicts (parseConfig trig))))
                      (with_savedTrigCfg (Some trig)
                         (add_events
                            [Write ("CONF:FREQ " ++ exp ++ "," ++ res
                                      ++ ",(@" ++ ch ++ ")");
                             Write "SAMP:COUN 1";
                             Write ("TRIG:COUN " ++ Py.string_of_Z samples)]
                            st))))).
  { rewrite (freq_setup_steps _ _ _ _ _ _ _ Hpar).
    unfold bind at 1. rewrite configureTrigger_spec. unfold outcome_of.
    destruct (accepted_all _ Hacc) as [-> ->].
    unfold freq_setup_tail.
    unfold bind at 1, read at 1.
    cbn [savedTrigLev add_events with_savedTrigCfg]. rewrite Hlev.
    unfold bind at 1, ret at 1.
    unfold bind at 1, getitem at 1; rewrite Hch; unfold ret at 1.
    unfold bind at 1, getitem at 1; rewrite Hcou; unfold ret at 1.
    rewrite format_coupling, Hs.
    unfold bind, write, logger_log, lift, ret, emit, bind.
    unfold add_events, with_savedTrigCfg; cbn [trace savedTrigCfg savedTrigLev
      freq_rawcfg period_rawcfg meas_out].
    rewrite <- !app_assoc. reflexivity. }
  rewrite H. split; [reflexivity|].
  unfold add_events, with_savedTrigCfg; cbn [snd trace].
  rewrite <- !app_assoc. reflexivity.
Qed.

Lemma freq_setup_commands_witness :
  fst (freq_setup (parseConfig "exp: res:6 ch:2 cou:dc sampl:4")
         "sou:bus cnt:4" init) = Returns 4
  /\ trace (snd (freq_setup (parseConfig "exp: res:6 ch:2 cou:dc sampl:4")
                   "sou:bus cnt:4" init))
     = (trace init
        ++ [Write ("CONF:FREQ " ++ "DEF" ++ "," ++ "1e-6" ++ ",(@" ++ "2" ++ ")");
            Write "SAMP:COUN 1";
            Write ("TRIG:COUN " ++ Py.string_of_Z 4)]
        ++ map Write (commands (verdicts (parseConfig "sou:bus cnt:4")))
        ++ [Write ("INPUT" ++ "2" ++ ":COUPLING " ++ "dc");
            Write "SENS:FREQ:GATE:TIME .1"; Write "INIT"])%list.
Proof.
  apply (freq_setup_commands (parseConfig "exp: res:6 ch:2 cou:dc sampl:4")
           "sou:bus cnt:4" "DEF" "1e-6" "2" "dc" 4 init);
    try reflexivity.
  vm_compute. repeat constructor.
Defined.

Example freq_setup_trace :
  trace (snd (freq_setup (parseConfig "exp: res:6 ch:2 cou:dc sampl:4")
                "sou:bus cnt:4" init))
  = [Write "CONF:FREQ DEF,1e-6,(@2)"; Write "SAMP:COUN 1"; Write "TRIG:COUN 4";
     Write "TRIGGer:COUNt 4"; Write "TRIGGer:SOURce bus";
     Write "INPUT2:COUPLING dc"; Write "SENS:FREQ:GATE:TIME .1"; Write "INIT"].
Proof. vm_compute. reflexivity. Qed.

(** The value [freq_setup] returns is the number of samples resolved. *)
Lemma freq_setup_returns_samples (d : Dict.dict) (trig exp res ch : string)
    (samples n : Z) (st st' : state) :
  freq_parameters d = Some (exp, res, ch, samples) ->
  freq_setup d trig st = (Returns n, st') ->
  n = samples.
Proof.
  intros Hpar Hrun. rewrite (freq_setup_steps _ _ _ _ _ _ _ Hpar) in Hrun.
  apply bind_inv_returns in Hrun. destruct Hrun as (? & ? & _ & Hrun).
  unfold freq_setup_tail in Hrun.
  repeat (apply bind_inv_returns in Hrun; destruct Hrun as (? & ? & _ & Hrun)).
  unfold ret in Hrun. now injection Hrun.
Qed.

Section SingleSample.

Variable answer : list event -> string -> string.
Variable logger_has_Error : bool.

(** X11: a request for one sample ([sampl:1], or [sampl] present and
    empty) takes the blocking batch read also when [breakread] is set, and
    the batch read always raises: such a call never delivers its value. *)
Theorem freq_single_sample_raises
    (cfgstr trig exp res ch : string) (breakread : bool) (st : state) :
  savedTrigCfg st = Some trig ->
  freq_parameters (parseConfig cfgstr) = Some (exp, res, ch, 1) ->
  (exists e, fst (freq answer logger_has_Error cfgstr breakread st) = Raises e)
  /\ meas_out (snd (freq answer logger_has_Error cfgstr breakread st))
     = meas_out st.
Proof.
  intros Hsaved Hpar.
  rewrite (freq_passes_check answer logger_has_Error _ _ _ _ Hsaved).
  unfold freq_configured, bind.
  pose proof (keeps_sink_freq_setup (parseConfig cfgstr) trig
                (with_freq_rawcfg (Some cfgstr) st)) as Hk.
  pose proof (freq_setup_finishes (parseConfig cfgstr) trig
                (with_freq_rawcfg (Some cfgstr) st)) as Hf.
  destruct (freq_setup (parseConfig cfgstr) trig
              (with_freq_rawcfg (Some cfgstr) st)) as [[n|e|] st1] eqn:Hrun;
    simpl in Hk, Hf.
  - rewrite (freq_setup_returns_samples _ _ _ _ _ _ _ _ _ Hpar Hrun).
    replace (negb breakread || (1 =? 1)) with true
      by (now destruct breakread).
    destruct (batch_read_raises answer 1 st1) as (e & evs & ->).
    split; [now exists e | exact Hk].
  - split; [now exists e | exact Hk].
  - contradiction.
Qed.

End SingleSample.

Lemma freq_single_sample_raises_witness :
  (exists e, fst (freq (scripted ["+0"; "+1.0E+7"]) false
                    "exp:10E6 res:5 ch:1 cou:ac sampl:1" true armed)
             = Raises e)
  /\ meas_out (snd (freq (scripted ["+0"; "+1.0E+7"]) false
                      "exp:10E6 res:5 ch:1 cou:ac sampl:1" true armed))
     = meas_out armed.
Proof.
  apply (freq_single_sample_raises (scripted ["+0"; "+1.0E+7"]) false
           "exp:10E6 res:5 ch:1 cou:ac sampl:1" "cnt:1" "10E6" "1e-5" "1"
           true armed);
    reflexivity.
Defined.

(** X15: the coupling is looked up only at line 193.  A [freq] call without
    the key [cou] fails with KeyError after the frequency configuration and
    the trigger configuration have been sent; the device is left configured
    and not armed (no INIT). *)
Theorem freq_setup_without_coupling
    (d : Dict.dict) (trig exp res ch : string) (samples : Z) (st : state) :
  freq_parameters d = Some (exp, res, ch, samples) ->
  Dict.get "cou" d = None ->
  savedTrigLev st = None ->
  Forall accepted (verdicts (parseConfig trig)) ->
  fst (freq_setup d trig st) = Raises (Py.KeyError "cou")
  /\ trace (snd (freq_setup d trig st))
     = (trace st
        ++ [Write ("CONF:FREQ " ++ exp ++ "," ++ res ++ ",(@" ++ ch ++ ")");
            Write "SAMP:COUN 1";
            Write ("TRIG:COUN " ++ Py.string_of_Z samples)]
        ++ map Write (commands (verdicts (parseConfig trig))))%list.
Proof.
  intros Hpar Hcou Hlev Hacc.
  pose proof (freq_parameters_ch _ _ _ _ _ Hpar) as Hch.
  assert (H : freq_setup d trig st
              = (Raises (Py.KeyError "cou"),
                 add_events
                   (map Write (commands (verdicts (parseConfig trig))))
                   (with_savedTrigCfg (Some trig)
                      (add_events
                         [Write ("CONF:FREQ " ++ exp ++ "," ++ res
                                   ++ ",(@" ++ ch ++ ")");
                          Write "SAMP:COUN 1";
                          Write ("TRIG:COUN " ++ Py.string_of_Z samples)]
                         st)))).
  { rewrite (freq_setup_steps _ _ _ _ _ _ _ Hpar).
    unfold bind at 1. rewrite configureTrigger_spec. unfold outcome_of.
    destruct (accepted_all _ Hacc) as [-> ->].
    unfold freq_setup_tail.
    unfold bind at 1, read at 1.
    cbn [savedTrigLev add_events with_savedTrigCfg]. rewrite Hlev.
    unfold bind at 1, ret at 1.
    unfold bind at 1, getitem at 1; rewrite Hch; unfold ret at 1.
    unfold bind at 1, getitem at 1; rewrite Hcou.
    reflexivity. }
  rewrite H. split; [reflexivity|].
  unfold add_events, with_savedTrigCfg; cbn [snd trace].
  rewrite <- !app_assoc. reflexivity.
Qed.

Lemma freq_setup_without_coupling_witness :
  fst (freq_setup (parseConfig "exp:10E6 res:5 ch:1 sampl:3") "cnt:3" init)
  = Raises (Py.KeyError "cou")
  /\ trace (snd (freq_setup (parseConfig "exp:10E6 res:5 ch:1 sampl:3")
                   "cnt:3" init))
     = (trace init
        ++ [Write ("CONF:FREQ " ++ "10E6" ++ "," ++ "1e-5" ++ ",(@" ++ "1" ++ ")");
            Write "SAMP:COUN 1";
            Write ("TRIG:COUN " ++ Py.string_of_Z 3)]
        ++ map Write (commands (verdicts (parseConfig "cnt:3"))))%list.
Proof.
  apply (freq_setup_without_coupling
           (parseConfig "exp:10E6 res:5 ch:1 sampl:3") "cnt:3"
           "10E6" "1e-5" "1" 3 init);
    try reflexivity.
  vm_compute. repeat constructor.
Defined.

(** ** The streaming read, round by round *)

Section Rounds.

Variable answer : list event -> string -> string.

(** X12: a request for no sample at all ([sampl:0], or a negative count)
    is served by the streaming read without a single poll: it sleeps once
    and returns. *)
Theorem stream_read_nothing_requested (samples : Z) (st : state) :
  samples <= 0 ->
  stream_read answer samples st
  = (Returns tt, add_events [Sleep deadtime] st).
Proof.
  intros Hle. unfold stream_read, bind, sleep, emit.
  replace (Z.to_nat samples) with O by lia.
  simpl. replace (0 <? samples) with false by (symmetry; apply Z.ltb_ge; lia).
  reflexivity.
Qed.

(** X13: a round whose reply has a header without [+] followed by float
    literals separated by commas skips the header, appends the values to
    the result container in the order of the reply, counts them, and
    sleeps. *)
Theorem stream_round_well_formed
    (st : state) (hdr tail : list ascii) (vs : list Py.float) :
  Py.chars (answer (trace st) "R? 5") = (hdr ++ "+"%char :: tail)%list ->
  ~ In "+"%char hdr ->
  map Py.parse_float (Py.split "," (Py.str ("+"%char :: tail))) = map Some vs ->
  stream_round answer st
  = (Returns (Z.of_nat (List.length vs)),
     add_events [Sleep deadtime]
       (add_samples (map Measure vs) (add_events [Query "R? 5"] st))).
Proof.
  intros Hreply Hhdr Hvals.
  destruct (all_parsed _ _ Hvals) as (Hall & Hpre & Hlen).
  rewrite stream_round_spec, Hreply, (skip_header_found _ _ Hhdr).
  cbn zeta. rewrite Hall, Hpre, Hlen. reflexivity.
Qed.

Lemma stream_round_traffic (st st1 : state) (n : Z) :
  stream_round answer st = (Returns n, st1) ->
  trace st1 = (trace st ++ [Query "R? 5"; Sleep deadtime])%list /\ 1 <= n.
Proof.
  rewrite stream_round_spec.
  destruct (skip_header _) as [body|e]; [|discriminate].
  cbn zeta.
  destruct (all_parse (Py.split "," (Py.str body))) eqn:Hall; [|discriminate].
  intros H. injection H as Hn Hst. subst st1 n. split.
  - simpl. now rewrite <- app_assoc.
  - pose proof (split_not_nil "," (Py.str body)) as Hne.
    destruct (Py.split "," (Py.str body)); [contradiction|].
    simpl List.length. lia.
Qed.

Lemma stream_loop_traffic (fuel : nat) (samples i : Z) (st st' : state) :
  stream_loop answer fuel samples i st = (Returns tt, st') ->
  exists k : nat,
    trace st' = (trace st ++ rounds k)%list
    /\ Z.of_nat k <= Z.max 0 (samples - i).
Proof.
  revert i st. induction fuel as [|fuel IH]; intros i st Hrun.
  - simpl in Hrun. destruct (i <? samples) eqn:Hlt; [discriminate|].
    injection Hrun as <-. exists O. split; [simpl; now rewrite app_nil_r | lia].
  - simpl in Hrun. destruct (i <? samples) eqn:Hlt.
    2:{ injection Hrun as <-. exists O.
        split; [simpl; now rewrite app_nil_r | lia]. }
    apply Z.ltb_lt in Hlt.
    apply bind_inv_returns in Hrun. destruct Hrun as (n & st1 & Hround & Hrest).
    destruct (stream_round_traffic _ _ _ Hround) as [Htr Hn].
    destruct (IH _ _ Hrest) as (k & Hk1 & Hk2).
    exists (S k). split.
    + rewrite Hk1, Htr. simpl. now rewrite <- app_assoc.
    + lia.
Qed.

(** X14: when the streaming read returns it has slept once and then made
    at most [samples] rounds, each of them one query [R? 5] (five values
    are asked for even when fewer are missing) followed by one sleep. *)
Theorem stream_read_traffic (samples : Z) (st st' : state) :
  stream_read answer samples st = (Returns tt, st') ->
  exists k : nat,
    trace st' = (trace st ++ Sleep deadtime :: rounds k)%list
    /\ Z.of_nat k <= Z.max 0 samples.
Proof.
  unfold stream_read, bind, sleep, emit. intros Hrun.
  destruct (stream_loop_traffic _ _ _ _ _ Hrun) as (k & Hk1 & Hk2).
  exists k. split.
  - rewrite Hk1. simpl. now rewrite <- app_assoc.
  - now rewrite Z.sub_0_r in Hk2.
Qed.

End Rounds.

Lemma stream_read_nothing_requested_witness :
  stream_read (scripted ["+1.0"]) 0 init
  = (Returns tt, add_events [Sleep deadtime] init).
Proof.
  apply (stream_read_nothing_requested (scripted ["+1.0"]) 0 init). lia.
Defined.

Lemma stream_round_well_formed_witness :
  stream_round (scripted ["#215+1.5,+2.3,+1.1"]) init
  = (Returns (Z.of_nat (List.length
                [Py.FFin false 6755399441055744 (-52);
                 Py.FFin false 5179139571476070 (-51);
                 Py.FFin false 4953959590107546 (-52)])),
     add_events [Sleep deadtime]
       (add_samples
          (map Measure
             [Py.FFin false 6755399441055744 (-52);
              Py.FFin false 5179139571476070 (-51);
              Py.FFin false 4953959590107546 (-52)])
          (add_events [Query "R? 5"] init))).
Proof.
  apply (stream_round_well_formed (scripted ["#215+1.5,+2.3,+1.1"]) init
           (Py.chars "#215") (Py.chars "1.5,+2.3,+1.1")).
  - reflexivity.
  - vm_compute. intuition discriminate.
  - vm_compute. reflexivity.
Defined.

(** A token that ends in the separator US is no float literal: the round
    raises at it, and nothing is appended. *)
Example stream_round_separator_in_token :
  stream_round (scripted ["#15+1.5" ++ String (ascii_of_nat 31) ""]) init
  = (Raises (Py.ValueError "could not convert string to float"),
     add_events [Query "R? 5"] init).
Proof. vm_compute. reflexivity. Qed.

Lemma stream_read_traffic_witness :
  exists k : nat,
    trace (snd (stream_read (scripted ["+1"; "+2,+3"]) 2 init))
    = (trace init ++ Sleep deadtime :: rounds k)%list
    /\ Z.of_nat k <= Z.max 0 2.
Proof.
  apply (stream_read_traffic (scripted ["+1"; "+2,+3"]) 2 init).
  vm_compute. reflexivity.
Defined.
